(** * The property validator of the Handoff / HubSpot component tool

    A shallow embedding of [validateField] and [validateModule]
    (src/unnamed/part_000, lines 18-337) and the properties of the
    diagnostics they produce.

    The validator is JavaScript: it mutates a local array [errors] with
    [push] and [concat], it reads members of objects that may be
    undefined, and it tests values for truthiness.  The embedding keeps
    these three things visible:
    - statements are transformers of the [errors] array that may end in a
      [TypeError] ([Stmt]);
    - reading a member below an undefined object, or applying [in] to a
      value that is not an object, ends in [Abrupt TypeError] ([deref],
      [js_in]);
    - truthiness is the class [Truthy]. *)

From Stdlib Require Import List String ZArith Bool Lia DecimalString.
Import ListNotations.
Open Scope string_scope.
Open Scope list_scope.
Open Scope Z_scope.

Set Implicit Arguments.
Set Warnings "-register-all".

(** ** JavaScript values *)

(** A value read from the fetched JSON document.  [undefined] is not a
    JSON value: an absent member is [None] in an [option].  Numbers are
    the integers (lengths, counts and pixel sizes); the validator only
    asks whether a number is zero and whether it is below one. *)
Inductive value : Type :=
| VNull
| VBool (b : bool)
| VNumber (n : Z)
| VString (s : string)
| VArray (elements : list value)
| VObject (members : list (string * value)).

(** [!x] is [negb (truthy x)]. *)
Class Truthy (A : Type) := truthy : A -> bool.

#[export] Instance truthy_string : Truthy string :=
  fun s => negb (String.eqb s EmptyString).

#[export] Instance truthy_number : Truthy Z :=
  fun n => negb (Z.eqb n 0).

#[export] Instance truthy_value : Truthy value :=
  fun v =>
    match v with
    | VNull => false
    | VBool b => b
    | VNumber n => truthy n
    | VString s => truthy s
    | VArray _ => true
    | VObject _ => true
    end.

(** An absent member reads as [undefined], which is falsy. *)
#[export] Instance truthy_option (A : Type) `{Truthy A} : Truthy (option A) :=
  fun o =>
    match o with
    | Some a => truthy a
    | None => false
    end.

(** [x === undefined] *)
Definition is_undefined (A : Type) (o : option A) : bool :=
  match o with
  | Some _ => false
  | None => true
  end.

(** [x === b] for a boolean literal [b]: strict equality, no coercion. *)
Definition strict_eq_bool (o : option value) (b : bool) : bool :=
  match o with
  | Some (VBool b') => Bool.eqb b' b
  | _ => false
  end.

(** [x === s] for a string literal [s]. *)
Definition strict_eq_string (o : option string) (s : string) : bool :=
  match o with
  | Some s' => String.eqb s' s
  | None => false
  end.

(** [typeof x] *)
Definition typeof (o : option value) : string :=
  match o with
  | None => "undefined"
  | Some VNull => "object"
  | Some (VBool _) => "boolean"
  | Some (VNumber _) => "number"
  | Some (VString _) => "string"
  | Some (VArray _) => "object"
  | Some (VObject _) => "object"
  end.

(** [Array.isArray(x)] *)
Definition isArray (o : option value) : bool :=
  match o with
  | Some (VArray _) => true
  | _ => false
  end.

(** [x < 1] on a number member; [undefined < 1] is [NaN < 1], false. *)
Definition lt_one (o : option Z) : bool :=
  match o with
  | Some n => Z.ltb n 1
  | None => false
  end.

(** [`${x}`] on a string member. *)
Definition template (o : option string) : string :=
  match o with
  | Some s => s
  | None => "undefined"
  end.

(** [list.indexOf(x)]: the first position holding a string strictly equal
    to [x], or -1. *)
Fixpoint indexOf (l : list string) (x : option string) : Z :=
  match l with
  | [] => -1
  | s :: rest =>
      if strict_eq_string x s then 0
      else
        let i := indexOf rest x in
        if Z.eqb i (-1) then -1 else i + 1
  end.

(** The decimal name of an array index. *)
Definition index_name (i : nat) : string :=
  NilEmpty.string_of_uint (Nat.to_uint i).

(** The property names [k in v] finds on an object value: the own keys of
    an object; the indices and [length] of an array.  The names inherited
    from [Object.prototype] and [Array.prototype] are methods
    ([toString], [hasOwnProperty], [map], ...), none of which is asked
    for by the validator. *)
Definition has_property (k : string) (v : value) : option bool :=
  match v with
  | VObject members => Some (existsb (fun m => String.eqb (fst m) k) members)
  | VArray elements =>
      Some (existsb (fun i => String.eqb (index_name i) k)
                    (seq 0 (List.length elements))
            || String.eqb k "length")
  | _ => None
  end.

(** ** Completions and statements *)

(** The one exception the validator can raise. *)
Inductive js_error : Type := TypeError.

(** How a call ends: it returns a value or it throws. *)
Inductive completion (A : Type) : Type :=
| Normal (a : A)
| Abrupt (e : js_error).

Arguments Normal {A} a.
Arguments Abrupt {A} e.

(** ** Diagnostics (part_000, lines 9-15) *)

(** [type Severity = "error" | "warning"] *)
Inductive Severity : Type := error | warning.

(** [interface FieldValidation]; [property] and [severity] are optional. *)
Record FieldValidation : Type := {
  message : string;
  attribute : string;
  property : option string;
  severity : option Severity
}.

(** A statement of the validator: it runs on the current contents of the
    local array [errors] and leaves the new contents, or throws. *)
Definition Stmt : Type :=
  list FieldValidation -> completion (list FieldValidation).

(** The empty statement. *)
Definition skip : Stmt := fun errors => Normal errors.

(** [a; b]: [b] runs when [a] has not thrown. *)
Definition then_ (a b : Stmt) : Stmt :=
  fun errors =>
    match a errors with
    | Normal errors' => b errors'
    | Abrupt e => Abrupt e
    end.

Notation "a ;; b" := (then_ a b) (at level 61, right associativity).

(** [errors.push(d)] *)
Definition push (d : FieldValidation) : Stmt :=
  fun errors => Normal (errors ++ [d]).

(** [errors = errors.concat(call)], where the call may throw. *)
Definition concat_call (call : completion (list FieldValidation)) : Stmt :=
  fun errors =>
    match call with
    | Normal more => Normal (errors ++ more)
    | Abrupt e => Abrupt e
    end.

(** Reading a member of [o]: a [TypeError] when [o] is undefined, else
    the statement continues with the object. *)
Definition deref (A : Type) (o : option A) (k : A -> Stmt) : Stmt :=
  match o with
  | Some a => k a
  | None => fun _ => Abrupt TypeError
  end.

(** [key in o]: a [TypeError] when [o] is not an object. *)
Definition js_in (key : string) (o : option value) (k : bool -> Stmt) : Stmt :=
  match o with
  | Some v =>
      match has_property key v with
      | Some b => k b
      | None => fun _ => Abrupt TypeError
      end
  | None => fun _ => Abrupt TypeError
  end.

(** [for (let key in object) body]: the entries of a JSON object in
    enumeration order; [body] receives [key] and [object[key]]. *)
Definition for_in (A : Type) (body : string -> A -> Stmt)
  : list (string * A) -> Stmt :=
  fix loop (entries : list (string * A)) : Stmt :=
    match entries with
    | [] => skip
    | (key, member) :: rest => body key member ;; loop rest
    end.

(** A function body [let errors = []; ...; return errors]. *)
Definition returning_errors (body : Stmt) : completion (list FieldValidation) :=
  body [].

(** ** The data model *)

(** Modelled from the spec: the declarations of fields/types.ts
    ([PropertyDefinition], [HandoffComponent]) are not among the sources;
    the records below follow section 3 of the specification and the
    members the validator reads.  Every member is optional, as in the
    fetched JSON.  A string, number or object member that is absent or
    [null] is [None]: the validator only tests such members for
    truthiness or compares them with a literal, and both read alike.
    [default] and [rules.required] are arbitrary values, because the
    validator tests their shape itself ([=== undefined], [typeof],
    [in], [=== true]). *)

(** Modelled from the spec: [rules.content], the bounds [{min, max}] on
    a length or count. *)
Record ContentRules : Type := {
  content_min : option Z;
  content_max : option Z
}.

(** Modelled from the spec: [rules.dimensions.min], a pixel size
    [{width, height}]. *)
Record Size : Type := {
  width : option Z;
  height : option Z
}.

(** Modelled from the spec: [rules.dimensions], of which the validator
    reads [min]. *)
Record DimensionRules : Type := {
  dimensions_min : option Size
}.

(** Modelled from the spec: the constraint bundle [rules]. *)
Record Rules : Type := {
  required : option value;
  content : option ContentRules;
  dimensions : option DimensionRules
}.

(** Modelled from the spec: a node of the property tree, and the
    [items] of an array field with their mapping from keys to nodes, in
    the order in which [for ... in] enumerates it. *)
Inductive PropertyDefinition : Type := Build_PropertyDefinition {
  type : option string;
  name : option string;
  description : option string;
  default : option value;
  rules : option Rules;
  items : option ItemsDefinition
}
with ItemsDefinition : Type := Build_ItemsDefinition {
  items_type : option string;
  items_properties : option (list (string * PropertyDefinition))
}.

(** Modelled from the spec: the unit under validation. *)
Record HandoffComponent : Type := {
  code : option string;
  title : option string;
  tags : option value;
  properties : option (list (string * PropertyDefinition))
}.

(** Objects are truthy. *)
#[export] Instance truthy_Rules : Truthy Rules := fun _ => true.
#[export] Instance truthy_ContentRules : Truthy ContentRules := fun _ => true.
#[export] Instance truthy_DimensionRules : Truthy DimensionRules := fun _ => true.
#[export] Instance truthy_Size : Truthy Size := fun _ => true.
#[export] Instance truthy_ItemsDefinition : Truthy ItemsDefinition := fun _ => true.
#[export] Instance truthy_properties : Truthy (list (string * PropertyDefinition)) :=
  fun _ => true.

(** ** The validator *)

Section Validate.

(** The table [FieldTypes] of fields/types.ts is not among the sources;
    the validator is taken for any such table. *)
Variable FieldTypes : list string.

(** [validateField] (part_000, lines 18-304).  [self] stands for the
    function itself at its recursive call on line 180.  Inside a guard
    the guarded object is read once with [deref] and named; the source
    reads it again at every use, with the same result, since nothing is
    assigned to the property tree. *)
Definition validateField_body
    (self : PropertyDefinition -> string -> completion (list FieldValidation))
    (property : PropertyDefinition) (key : string)
  : completion (list FieldValidation) :=
  let diagnostic (m a : string) (s : Severity) : FieldValidation :=
    {| message := m; attribute := a; property := Some key; severity := Some s |} in
  returning_errors (
    (* lines 23-37 *)
    (if negb (truthy (type property)) then
       push (diagnostic "Field type is required" "type" error)
     else if Z.eqb (indexOf FieldTypes (type property)) (-1) then
       push (diagnostic ("Field type " ++ template (type property) ++ " is invalid")%string
                        "type" error)
     else skip) ;;
    (* lines 38-45 *)
    (if negb (truthy (description property)) then
       push (diagnostic "Field description is required" "description" warning)
     else skip) ;;
    (* lines 46-53 *)
    (if negb (truthy (name property)) then
       push (diagnostic "Field name is required" "name" error)
     else skip) ;;
    (* lines 54-61 *)
    (if is_undefined (default property)
        && negb (strict_eq_string (type property) "array") then
       push (diagnostic "Field default is required" "default" warning)
     else skip) ;;
    (* lines 63-301 *)
    (if negb (truthy (rules property)) then
       push (diagnostic "Field rules are required" "rules" warning)
     else
       deref (rules property) (fun rules =>
       (* lines 71-78 *)
       (if negb (strict_eq_bool (required rules) false)
           && negb (strict_eq_bool (required rules) true) then
          push (diagnostic "Field rules.required is required" "rules.required" error)
        else skip) ;;
       (* lines 79-96 *)
       (if truthy (content rules) then
          deref (content rules) (fun content =>
          (if negb (truthy (content_min content))
              && strict_eq_bool (required rules) true then
             push (diagnostic "Content rules must have a minimum length"
                              "rules.content.min" warning)
           else skip) ;;
          (if negb (truthy (content_max content)) then
             push (diagnostic "Content rules must have a maximum length"
                              "rules.content.min" warning)
           else skip))
        else skip) ;;
       (* lines 97-106 *)
       (if strict_eq_string (type property) "text" then
          (if negb (truthy (content rules)) then
             push (diagnostic "Content rules are required for text fields"
                              "rules.content" error)
           else skip)
        else skip) ;;
       (* lines 107-185 *)
       (if strict_eq_string (type property) "array" then
          (* lines 108-146 *)
          (if negb (truthy (content rules)) then
             push (diagnostic "Content rules are required for array fields"
                              "rules.content" error)
           else
             deref (content rules) (fun content =>
             (if negb (truthy (content_min content)) then
                push (diagnostic "Array fields must have a minimum content length"
                                 "rules.content.min" error)
              else if lt_one (content_min content) then
                push (diagnostic "Array fields must have a maximum content length"
                                 "rules.content.min" error)
              else skip) ;;
             (if negb (truthy (content_max content)) then
                push (diagnostic "Content rules must have a maximum length"
                                 "rules.content.min" error)
              else if lt_one (content_max content) then
                push (diagnostic "Content rules maximum length must be greater than 0"
                                 "rules.content.max" error)
              else skip))) ;;
          (* lines 147-184 *)
          (if negb (truthy (items property)) then
             push (diagnostic "Items are required for array fields" "items" error)
           else
             deref (items property) (fun items =>
             (if negb (truthy (items_type items)) then
                push (diagnostic "Type is required for array fields" "items.type" error)
              else if Z.eqb (indexOf FieldTypes (items_type items)) (-1) then
                push (diagnostic ("Field type " ++ template (items_type items)
                                  ++ " is invalid")%string
                                 "items.type" error)
              else skip) ;;
             (if negb (truthy (items_properties items)) then
                push (diagnostic "Properties are required for array fields"
                                 "items.properties" error)
              else
                deref (items_properties items) (fun properties =>
                for_in (fun key member => concat_call (self member key))
                       properties))))
        else skip) ;;
       (* lines 186-212 *)
       (if strict_eq_string (type property) "link" then
          (if negb (truthy (default property))
              || negb (String.eqb (typeof (default property)) "object") then
             push (diagnostic "Default is required for link fields" "default" error)
           else
             js_in "url" (default property) (fun found =>
               if negb found then
                 push (diagnostic "Default url is required for link fields"
                                  "image.default.url" error)
               else skip) ;;
             js_in "text" (default property) (fun found =>
               if negb found then
                 push (diagnostic "Default text is required for link fields"
                                  "link.default.text" error)
               else skip))
        else skip) ;;
       (* lines 213-239 *)
       (if strict_eq_string (type property) "button" then
          (if negb (truthy (default property))
              || negb (String.eqb (typeof (default property)) "object") then
             push (diagnostic "Default is required for link fields" "default" error)
           else
             js_in "url" (default property) (fun found =>
               if negb found then
                 push (diagnostic "Default url is required for image fields"
                                  "image.default.url" error)
               else skip) ;;
             js_in "label" (default property) (fun found =>
               if negb found then
                 push (diagnostic "Default label is required for image fields"
                                  "link.default.label" error)
               else skip))
        else skip) ;;
       (* lines 240-300 *)
       (if strict_eq_string (type property) "image" then
          (if negb (truthy (default property))
              || negb (String.eqb (typeof (default property)) "object") then
             push (diagnostic "Default is required for image fields" "default" error)
           else
             js_in "src" (default property) (fun found =>
               if negb found then
                 push (diagnostic "Default src is required for image fields"
                                  "image.default.src" error)
               else skip) ;;
             js_in "alt" (default property) (fun found =>
               if negb found then
                 push (diagnostic "Default alt is required for image fields"
                                  "image.default.alt" error)
               else skip)) ;;
          (if negb (truthy (dimensions rules)) then
             push (diagnostic "Dimensions are required for image fields"
                              "rules.dimensions" error)
           else
             deref (dimensions rules) (fun dimensions =>
             if negb (truthy (dimensions_min dimensions)) then
               push (diagnostic "Minimum is required for image fields"
                                "rules.dimensions.min" error)
             else
               deref (dimensions_min dimensions) (fun min =>
               (if negb (truthy (width min)) then
                  push (diagnostic "Minimum width is required for image fields"
                                   "rules.dimensions.width" error)
                else skip) ;;
               (if negb (truthy (height min)) then
                  push (diagnostic "Minimum height is required for image fields"
                                   "rules.dimensions.height" error)
                else skip))))
        else skip)))
  ).

Fixpoint validateField (property : PropertyDefinition) (key : string) {struct property}
  : completion (list FieldValidation) :=
  validateField_body validateField property key.

(** [validateModule] (part_000, lines 306-337). *)
Definition validateModule (component : HandoffComponent)
  : completion (list FieldValidation) :=
  let diagnostic (m a : string) : FieldValidation :=
    {| message := m; attribute := a; property := None; severity := None |} in
  returning_errors (
    (if negb (truthy (code component)) then
       push (diagnostic "Component code is required" "code")
     else skip) ;;
    (if negb (truthy (title component)) then
       push (diagnostic "Component title is required" "title")
     else skip) ;;
    (if negb (truthy (tags component)) then
       push (diagnostic "Component tags are required" "tags")
     else
       (if negb (isArray (tags component)) then
          push (diagnostic "Component tags must be an array" "tags")
        else skip)) ;;
    (if negb (truthy (properties component)) then
       push (diagnostic "Component properties are required" "properties")
     else
       deref (properties component) (fun properties =>
       for_in (fun key member => concat_call (validateField member key))
              properties))
  ).

(** The diagnostics a field receives for itself: the body of
    [validateField] with the recursive calls of line 180 contributing
    nothing. *)
Definition fieldDiagnostics (property : PropertyDefinition) (key : string)
  : completion (list FieldValidation) :=
  validateField_body (fun _ _ => Normal []) property key.

End Validate.

Arguments validateField_body FieldTypes self property key : simpl never.

(** ** Notions used to state the properties *)

(** What a call contributes to [errors.concat] when it returns. *)
Definition returned (A : Type) (c : completion (list A)) : list A :=
  match c with
  | Normal l => l
  | Abrupt _ => []
  end.

(** What the loop
    [for (let key in entries) errors = errors.concat(self(entries[key], key))]
    adds: the results of the calls, one after the other. *)
Definition loop_output
    (self : PropertyDefinition -> string -> completion (list FieldValidation))
    (entries : list (string * PropertyDefinition)) : list FieldValidation :=
  flat_map (fun e => returned (self (snd e) (fst e))) entries.

(** The entries the loop of lines 178-182 walks: those of
    [items.properties], reached when the field is an array and has a
    rules object (the loop sits in the [else] of line 63 and the [if] of
    line 107). *)
Definition nested_entries (p : PropertyDefinition)
  : list (string * PropertyDefinition) :=
  if strict_eq_string (type p) "array" && truthy (rules p) then
    match items p with
    | Some it =>
        match items_properties it with
        | Some entries => entries
        | None => []
        end
    | None => []
    end
  else [].

(** [k in o] when it returns: whether the object [o] has the key. *)
Definition has_key (k : string) (o : option value) : bool :=
  match o with
  | Some v => match has_property k v with Some b => b | None => false end
  | None => false
  end.

(** A statement that returns normally and only adds [out] at the end of
    [errors]. *)
Definition appends (s : Stmt) (out : list FieldValidation) : Prop :=
  forall errors, s errors = Normal (errors ++ out).

(** [d.attribute === a] *)
Definition has_attribute (a : string) (d : FieldValidation) : bool :=
  String.eqb (attribute d) a.

(** [d.severity === s] *)
Definition has_severity (s : Severity) (d : FieldValidation) : bool :=
  match severity d, s with
  | Some error, error => true
  | Some warning, warning => true
  | _, _ => false
  end.

(** The record pushed for the field [key]. *)
Definition field_diagnostic (m a key : string) (s : Severity) : FieldValidation :=
  {| message := m; attribute := a; property := Some key; severity := Some s |}.

(** Diagnostics about [rules.content]. *)
Definition touches_content (d : FieldValidation) : bool :=
  has_attribute "rules.content.min" d || has_attribute "rules.content.max" d
  || has_attribute "rules.content" d.

(** Errors labelled [rules.content.min]. *)
Definition min_error (d : FieldValidation) : bool :=
  has_attribute "rules.content.min" d && has_severity error d.

(** ** Fully populated components *)

(** A member counts as given when it is there and is not the value
    JavaScript takes for missing: the empty string, zero. *)
Definition given_string (o : option string) : Prop :=
  exists s, o = Some s /\ s <> EmptyString.

(** A number that is there and is not zero. *)
Definition given_number (o : option Z) : Prop :=
  exists n, o = Some n /\ n <> 0.

(** A count of one or more. *)
Definition at_least_one (o : option Z) : Prop :=
  exists n, o = Some n /\ 1 <= n.

(** An object-shaped default carrying each of the keys [ks]. *)
Definition object_with_keys (ks : list string) (o : option value) : Prop :=
  exists members,
    o = Some (VObject members) /\
    forall k, In k ks -> In k (map fst members).

(** Content rules that give both bounds. *)
Definition populated_content (c : ContentRules) : Prop :=
  given_number (content_min c) /\ given_number (content_max c).

Section WellFormed.

Variable FieldTypes : list string.

(** A type of the enumeration. *)
Definition valid_type (o : option string) : Prop :=
  exists t, o = Some t /\ t <> EmptyString /\ In t FieldTypes.

(** A fully populated field: type from the enumeration, name,
    description, rules with an explicit [required], and the data its
    type asks for. *)
Inductive valid_field : PropertyDefinition -> Prop :=
| valid_field_intro (p : PropertyDefinition) (r : Rules) :
    valid_type (type p) ->
    given_string (name p) ->
    given_string (description p) ->
    rules p = Some r ->
    (required r = Some (VBool true) \/ required r = Some (VBool false)) ->
    (* default *)
    (type p <> Some "array" -> default p <> None) ->
    (type p = Some "link" -> object_with_keys ["url"; "text"] (default p)) ->
    (type p = Some "button" -> object_with_keys ["url"; "label"] (default p)) ->
    (type p = Some "image" -> object_with_keys ["src"; "alt"] (default p)) ->
    (* content *)
    (forall c, content r = Some c -> populated_content c) ->
    (type p = Some "text" -> content r <> None) ->
    (type p = Some "array" ->
     exists c, content r = Some c /\
               at_least_one (content_min c) /\ at_least_one (content_max c)) ->
    (* dimensions *)
    (type p = Some "image" ->
     exists d s, dimensions r = Some d /\ dimensions_min d = Some s /\
                 given_number (width s) /\ given_number (height s)) ->
    (* items *)
    (type p = Some "array" ->
     exists it entries,
       items p = Some it /\ valid_type (items_type it) /\
       items_properties it = Some entries /\
       forall k member, In (k, member) entries -> valid_field member) ->
    valid_field p.

(** A component with code, title, array-valued tags and a non-empty
    mapping of fully populated fields. *)
Definition valid_component (c : HandoffComponent) : Prop :=
  given_string (code c) /\
  given_string (title c) /\
  (exists elements, tags c = Some (VArray elements)) /\
  exists entries,
    properties c = Some entries /\ entries <> [] /\
    forall k p, In (k, p) entries -> valid_field p.

End WellFormed.
(** *** Deciding full population

    Boolean counterparts of the predicates above, to evaluate them on a
    given component. *)

Definition given_stringb (o : option string) : bool :=
  match o with
  | Some s => negb (String.eqb s EmptyString)
  | None => false
  end.

Definition given_numberb (o : option Z) : bool :=
  match o with
  | Some n => negb (Z.eqb n 0)
  | None => false
  end.

Definition at_least_oneb (o : option Z) : bool :=
  match o with
  | Some n => Z.leb 1 n
  | None => false
  end.

Definition object_with_keysb (ks : list string) (o : option value) : bool :=
  match o with
  | Some (VObject members) =>
      forallb (fun k => existsb (fun m => String.eqb (fst m) k) members) ks
  | _ => false
  end.

Definition populated_contentb (c : ContentRules) : bool :=
  given_numberb (content_min c) && given_numberb (content_max c).

Definition is_given (A : Type) (o : option A) : bool :=
  match o with
  | Some _ => true
  | None => false
  end.

Definition is_boolean (o : option value) : bool :=
  match o with
  | Some (VBool _) => true
  | _ => false
  end.

Section Decide.

Variable FieldTypes : list string.

Definition valid_typeb (o : option string) : bool :=
  match o with
  | Some t => negb (String.eqb t EmptyString) && existsb (String.eqb t) FieldTypes
  | None => false
  end.

Fixpoint valid_fieldb (p : PropertyDefinition) : bool :=
  let typed t := strict_eq_string (type p) t in
  valid_typeb (type p) && given_stringb (name p) && given_stringb (description p)
  && match rules p with
     | None => false
     | Some r =>
         is_boolean (required r)
         && (typed "array" || is_given (default p))
         && implb (typed "link") (object_with_keysb ["url"; "text"] (default p))
         && implb (typed "button") (object_with_keysb ["url"; "label"] (default p))
         && implb (typed "image") (object_with_keysb ["src"; "alt"] (default p))
         && match content r with
            | Some c => populated_contentb c
            | None => true
            end
         && implb (typed "text") (is_given (content r))
         && implb (typed "array")
              match content r with
              | Some c => at_least_oneb (content_min c) && at_least_oneb (content_max c)
              | None => false
              end
         && implb (typed "image")
              match dimensions r with
              | Some d =>
                  match dimensions_min d with
                  | Some s => given_numberb (width s) && given_numberb (height s)
                  | None => false
                  end
              | None => false
              end
         && implb (typed "array")
              match items p with
              | Some it =>
                  valid_typeb (items_type it)
                  && match items_properties it with
                     | Some entries => forallb (fun e => valid_fieldb (snd e)) entries
                     | None => false
                     end
              | None => false
              end
     end.

Definition valid_componentb (c : HandoffComponent) : bool :=
  given_stringb (code c) && given_stringb (title c) && isArray (tags c)
  && match properties c with
     | Some entries =>
         negb (Nat.eqb (List.length entries) 0)
         && forallb (fun e => valid_fieldb (snd e)) entries
     | None => false
     end.

End Decide.

(** ** The earlier iteration of the validator *)

(** src/validate/index.ts holds an earlier iteration of the same two
    functions (lines 8-122).  It tests [default], [rules.required] and
    [rules.content.min] for truthiness only, has no link, button or tags
    checks, and asks image fields for a truthy default. *)
Module Earlier.

Section Validate.

Variable FieldTypes : list string.

(** [validateField] (index.ts, lines 8-102); [self] is the recursive
    call of line 75. *)
Definition validateField_body
    (self : PropertyDefinition -> string -> completion (list FieldValidation))
    (property : PropertyDefinition) (key : string)
  : completion (list FieldValidation) :=
  let diagnostic (m a : string) (s : Severity) : FieldValidation :=
    {| message := m; attribute := a; property := Some key; severity := Some s |} in
  returning_errors (
    (* lines 13-17 *)
    (if negb (truthy (type property)) then
       push (diagnostic "Field type is required" "type" error)
     else if Z.eqb (indexOf FieldTypes (type property)) (-1) then
       push (diagnostic ("Field type " ++ template (type property) ++ " is invalid")%string
                        "type" error)
     else skip) ;;
    (* lines 18-20 *)
    (if negb (truthy (description property)) then
       push (diagnostic "Field description is required" "description" warning)
     else skip) ;;
    (* lines 21-23 *)
    (if negb (truthy (name property)) then
       push (diagnostic "Field name is required" "name" error)
     else skip) ;;
    (* lines 24-26 *)
    (if negb (truthy (default property)) then
       push (diagnostic "Field default is required" "default" warning)
     else skip) ;;
    (* lines 28-99 *)
    (if negb (truthy (rules property)) then
       push (diagnostic "Field rules are required" "rules" warning)
     else
       deref (rules property) (fun rules =>
       (* lines 31-33 *)
       (if negb (truthy (required rules)) then
          push (diagnostic "Field rules.required is required" "rules.required" error)
        else skip) ;;
       (* lines 34-42 *)
       (if truthy (content rules) then
          deref (content rules) (fun content =>
          (if negb (truthy (content_min content)) then
             push (diagnostic "Content rules must have a minimum length"
                              "rules.content.min" warning)
           else skip) ;;
          (if negb (truthy (content_max content)) then
             push (diagnostic "Content rules must have a maximum length"
                              "rules.content.min" warning)
           else skip))
        else skip) ;;
       (* lines 43-47 *)
       (if strict_eq_string (type property) "text" then
          (if negb (truthy (content rules)) then
             push (diagnostic "Content rules are required for text fields"
                              "rules.content" error)
           else skip)
        else skip) ;;
       (* lines 48-79 *)
       (if strict_eq_string (type property) "array" then
          (if negb (truthy (content rules)) then
             push (diagnostic "Content rules are required for array fields"
                              "rules.content" error)
           else
             deref (content rules) (fun content =>
             (if negb (truthy (content_min content)) then
                push (diagnostic "Array fields must have a minimum content length"
                                 "rules.content.min" error)
              else if lt_one (content_min content) then
                push (diagnostic "Array fields must have a maximum content length"
                                 "rules.content.min" error)
              else skip) ;;
             (if negb (truthy (content_max content)) then
                push (diagnostic "Content rules must have a maximum length"
                                 "rules.content.min" error)
              else if lt_one (content_max content) then
                push (diagnostic "Content rules maximum length must be greater than 0"
                                 "rules.content.max" error)
              else skip))) ;;
          (if negb (truthy (items property)) then
             push (diagnostic "Items are required for array fields" "items" error)
           else
             deref (items property) (fun items =>
             (if negb (truthy (items_type items)) then
                push (diagnostic "Type is required for array fields" "items.type" error)
              else if Z.eqb (indexOf FieldTypes (items_type items)) (-1) then
                push (diagnostic ("Field type " ++ template (items_type items)
                                  ++ " is invalid")%string
                                 "items.type" error)
              else skip) ;;
             (if negb (truthy (items_properties items)) then
                push (diagnostic "Properties are required for array fields"
                                 "items.properties" error)
              else
                deref (items_properties items) (fun properties =>
                for_in (fun key member => concat_call (self member key))
                       properties))))
        else skip) ;;
       (* lines 80-98 *)
       (if strict_eq_string (type property) "image" then
          (if negb (truthy (default property)) then
             push (diagnostic "Default is required for image fields" "default" error)
           else skip) ;;
          (if negb (truthy (dimensions rules)) then
             push (diagnostic "Dimensions are required for image fields"
                              "rules.dimensions" error)
           else
             deref (dimensions rules) (fun dimensions =>
             if negb (truthy (dimensions_min dimensions)) then
               push (diagnostic "Minimum is required for image fields"
                                "rules.dimensions.min" error)
             else
               deref (dimensions_min dimensions) (fun min =>
               (if negb (truthy (width min)) then
                  push (diagnostic "Minimum width is required for image fields"
                                   "rules.dimensions.width" error)
                else skip) ;;
               (if negb (truthy (height min)) then
                  push (diagnostic "Minimum height is required for image fields"
                                   "rules.dimensions.height" error)
                else skip))))
        else skip)))
  ).

Fixpoint validateField (property : PropertyDefinition) (key : string) {struct property}
  : completion (list FieldValidation) :=
  validateField_body validateField property key.

(** [validateModule] (index.ts, lines 104-122). *)
Definition validateModule (component : HandoffComponent)
  : completion (list FieldValidation) :=
  let diagnostic (m a : string) : FieldValidation :=
    {| message := m; attribute := a; property := None; severity := None |} in
  returning_errors (
    (if negb (truthy (code component)) then
       push (diagnostic "Component code is required" "code")
     else skip) ;;
    (if negb (truthy (title component)) then
       push (diagnostic "Component title is required" "title")
     else skip) ;;
    (if negb (truthy (properties component)) then
       push (diagnostic "Component properties are required" "properties")
     else
       deref (properties component) (fun properties =>
       for_in (fun key member => concat_call (validateField member key))
              properties))
  ).

End Validate.

End Earlier.

(** ** Sample inputs *)

(** The part of the enumeration that section 3 of the specification
    spells out. *)
Definition sample_FieldTypes : list string :=
  ["text"; "array"; "image"; "link"; "button"; "group"].

Definition text_rules (max : option Z) : Rules :=
  {| required := Some (VBool true);
     content := Some {| content_min := Some 1; content_max := max |};
     dimensions := None |}.

(** A fully populated text field. *)
Definition headline : PropertyDefinition :=
  {| type := Some "text";
     name := Some "Headline";
     description := Some "Main headline";
     default := Some (VString "Hello");
     rules := Some (text_rules (Some 80));
     items := None |}.

(** A text field whose content rules give no maximum. *)
Definition unbounded_text : PropertyDefinition :=
  {| type := Some "text";
     name := Some "Body";
     description := Some "Body copy";
     default := Some (VString EmptyString);
     rules := Some (text_rules None);
     items := None |}.

(** A nested field without a type. *)
Definition untyped_label : PropertyDefinition :=
  {| type := None;
     name := Some "Label";
     description := Some "Link label";
     default := Some (VString "Read more");
     rules := Some {| required := Some (VBool false); content := None;
                      dimensions := None |};
     items := None |}.

Definition list_rules (min : option Z) : Rules :=
  {| required := Some (VBool false);
     content := Some {| content_min := min; content_max := Some 5 |};
     dimensions := None |}.

(** An array field with the given rules and item properties. *)
Definition link_list (r : option Rules) (entries : list (string * PropertyDefinition))
  : PropertyDefinition :=
  {| type := Some "array";
     name := Some "Links";
     description := Some "Footer links";
     default := None;
     rules := r;
     items := Some {| items_type := Some "link";
                      items_properties := Some entries |} |}.

(** A list whose one item property has no type. *)
Definition untyped_entries : list (string * PropertyDefinition) :=
  [("label", untyped_label)].

Definition untyped_list : PropertyDefinition :=
  link_list (Some (list_rules (Some 1))) untyped_entries.

(** The same list without its rules object. *)
Definition ruleless_list : PropertyDefinition :=
  link_list None untyped_entries.

(** Lists whose minimum is absent, zero and negative. *)
Definition list_without_min : PropertyDefinition :=
  link_list (Some (list_rules None)) [].

Definition list_with_zero_min : PropertyDefinition :=
  link_list (Some (list_rules (Some 0))) [].

Definition list_with_negative_min : PropertyDefinition :=
  link_list (Some (list_rules (Some (-1)))) [].

Definition image_rules : Rules :=
  {| required := Some (VBool true);
     content := None;
     dimensions :=
       Some {| dimensions_min := Some {| width := Some 1200; height := Some 600 |} |} |}.

(** An image field, with or without its default. *)
Definition banner (d : option value) : PropertyDefinition :=
  {| type := Some "image";
     name := Some "Banner";
     description := Some "Banner image";
     default := d;
     rules := Some image_rules;
     items := None |}.

Definition banner_default : value :=
  VObject [("src", VString "/banner.png"); ("alt", VString "Banner")].

Definition hero : HandoffComponent :=
  {| code := Some "<section></section>";
     title := Some "Hero";
     tags := Some (VArray [VString "marketing"]);
     properties :=
       Some [("headline", headline);
             ("banner", banner (Some banner_default));
             ("links", link_list (Some (list_rules (Some 1))) [("label", headline)])] |}.

(** ** Further notions for the component validator *)

(** The entries [validateModule] walks: those of [component.properties],
    none when the mapping is missing. *)
Definition component_entries (c : HandoffComponent)
  : list (string * PropertyDefinition) :=
  match properties c with
  | Some entries => entries
  | None => []
  end.

(** The attributes [validateField] writes (part_000, lines 23-300). *)
Definition field_attributes : list string :=
  ["type"; "description"; "name"; "default"; "rules"; "rules.required";
   "rules.content.min"; "rules.content"; "rules.content.max";
   "items"; "items.type"; "items.properties";
   "image.default.url"; "link.default.text"; "link.default.label";
   "image.default.src"; "image.default.alt";
   "rules.dimensions"; "rules.dimensions.min";
   "rules.dimensions.width"; "rules.dimensions.height"].

(** The attributes [validateModule] writes itself (lines 310-330). *)
Definition component_attributes : list string :=
  ["code"; "title"; "tags"; "properties"].

(** The attributes whose diagnostics are warnings. *)
Definition warning_attributes : list string :=
  ["description"; "default"; "rules"; "rules.content.min"].

(** The same diagnostic under another key. *)
Definition with_property (key : string) (d : FieldValidation) : FieldValidation :=
  {| message := message d; attribute := attribute d;
     property := Some key; severity := severity d |}.

(** The own diagnostics of a field in the earlier iteration. *)
Definition earlier_fieldDiagnostics (FieldTypes : list string)
    (property : PropertyDefinition) (key : string)
  : completion (list FieldValidation) :=
  Earlier.validateField_body FieldTypes (fun _ _ => Normal []) property key.

(** ** Presentation (part_000, lines 339-371) *)

(** [s.charAt(0)] *)
Definition charAt0 (s : string) : string :=
  match s with
  | EmptyString => EmptyString
  | String c _ => String c EmptyString
  end.

(** [s.slice(1)] *)
Definition slice1 (s : string) : string :=
  match s with
  | EmptyString => EmptyString
  | String _ rest => rest
  end.

(** The string a [Severity] is. *)
Definition severity_string (s : Severity) : string :=
  match s with
  | error => "error"
  | warning => "warning"
  end.

(** The line feed of ["\n"]. *)
Definition line_feed : string := String (Ascii.ascii_of_nat 10) EmptyString.

(** What a [console] method was called with. *)
Inductive console_call : Type :=
| console_error (arguments : list string)
| console_log (arguments : list string).

Section Presentation.

(** The colouring functions [chalk.red], [chalk.yellow], [chalk.green]
    and the method [String.prototype.toUpperCase] belong to the
    environment; the functions are taken for any of them. *)
Variable red yellow green : string -> string.
Variable toUpperCase : string -> string.

(** [severityFunction] (lines 339-344). *)
Definition severityFunction (s : Severity) : string -> string :=
  match s with
  | error => red
  | warning => yellow
  end.

(** [capitalize] (lines 357-360); an undefined argument is [None]. *)
Definition capitalize (s : option string) : string :=
  match s with
  | None => EmptyString
  | Some s => (toUpperCase (charAt0 s) ++ slice1 s)%string
  end.

(** The line [formatErrors] writes for one diagnostic (lines 349-351). *)
Definition formatError (e : FieldValidation) : string :=
  severityFunction
    (match severity e with Some s => s | None => error end)
    (capitalize (option_map severity_string (severity e)) ++ ": " ++ message e ++ " "
     ++ (if truthy (property e) then ("for " ++ capitalize (property e))%string
         else EmptyString)
     ++ " ")%string.

(** [formatErrors] (lines 346-354). *)
Definition formatErrors (errors : list FieldValidation) : string :=
  String.concat line_feed (map formatError errors).

Variable FieldTypes : list string.

(** [validateComponent] (lines 362-371), from what [fetchComponent(id)]
    resolves to: the calls made on [console], or the exception the
    promise is rejected with. *)
Definition validateComponent (fetched : completion HandoffComponent)
  : completion (list console_call) :=
  match fetched with
  | Abrupt e => Abrupt e
  | Normal component =>
      match validateModule FieldTypes component with
      | Abrupt e => Abrupt e
      | Normal errors =>
          if Nat.ltb 0 (List.length errors) then
            Normal [console_error [red ("Validation failed" ++ line_feed)%string;
                                   formatErrors errors]]
          else
            Normal [console_log [green "Validation passed"]]
      end
  end.

End Presentation.

(** ** Building form fields (src/fields/generic.ts) *)

(** [occurrence] of a group field (lines 36-41). *)
Record Occurrence : Type := {
  occurrence_min : Z;
  occurrence_max : Z;
  sorting_label_field : value;
  occurrence_default : Z
}.

(** The object [buildBaseField] returns (lines 72-84). *)
Record BaseField : Type := {
  field_id : string;
  field_name : string;
  field_label : string;
  field_required : bool;
  field_help_text : option string;
  field_locked : bool;
  field_allow_new_line : bool;
  field_show_emoji_picker : bool;
  field_type : string;
  field_display_width : value;
  field_default : option value
}.

(** The object [buildBaseGroupField] returns (lines 24-43): the members
    of a base field, [occurrence] and [children]. *)
Record GroupField (Child : Type) : Type := {
  group_base : BaseField;
  group_occurrence : Occurrence;
  group_children : list Child
}.

(** [x || 0] on a number that may be undefined. *)
Definition or_zero (o : option Z) : Z :=
  match o with
  | Some n => if truthy n then n else 0
  | None => 0
  end.

(** [o?.member] *)
Definition optional_member (A B : Type) (o : option A) (f : A -> option B) : option B :=
  match o with
  | Some a => f a
  | None => None
  end.

(** Sequencing of calls that may throw. *)
Definition and_then (A B : Type) (c : completion A) (k : A -> completion B)
  : completion B :=
  match c with
  | Normal a => k a
  | Abrupt e => Abrupt e
  end.

(** Reading a member of [o] in an expression: a [TypeError] when [o] is
    undefined. *)
Definition member_of (A : Type) (o : option A) : completion A :=
  match o with
  | Some a => Normal a
  | None => Abrupt TypeError
  end.

Section BuildFields.

(** The helpers [safeLabel], [safeName] and [parseRequired] of
    fields/utils and [buildFields] of fields/fields are not among the
    sources: the builders are taken for any of them, each call
    returning or throwing.  [uuid] is what the call of [uuidv4()]
    returns. *)
Variable Child : Type.
Variable safeLabel : string -> completion string.
Variable safeName : option string -> completion string.
Variable parseRequired : option Rules -> completion bool.
Variable buildFields : option (list (string * PropertyDefinition)) -> completion (list Child).

(** The members that the two literals share, evaluated in the order
    they are written (lines 25-35 and 73-83). *)
Definition base_members (uuid : string) (id : string)
    (property : PropertyDefinition) (type_ : string) : completion BaseField :=
  and_then (safeLabel id) (fun name_ =>
  and_then (safeName (name property)) (fun label =>
  and_then (parseRequired (rules property)) (fun required_ =>
  Normal {| field_id := (id ++ "_" ++ uuid)%string;
            field_name := name_;
            field_label := label;
            field_required := required_;
            field_help_text := description property;
            field_locked := false;
            field_allow_new_line := false;
            field_show_emoji_picker := false;
            field_type := type_;
            field_display_width := VNull;
            field_default := default property |}))).

(** [buildBaseGroupField] (generic.ts, lines 6-51). *)
Definition buildBaseGroupField (uuid : string) (id : string)
    (property : PropertyDefinition) : completion (GroupField Child) :=
  and_then (base_members uuid id property "group") (fun base =>
  (* lines 36-41: property.rules.content?.min || 0 *)
  and_then (member_of (rules property)) (fun rules_ =>
  let occurrence :=
    {| occurrence_min := or_zero (optional_member (content rules_) content_min);
       occurrence_max := or_zero (optional_member (content rules_) content_max);
       sorting_label_field := VNull;
       occurrence_default := or_zero (optional_member (content rules_) content_min) |} in
  (* lines 44-49 *)
  if strict_eq_string (type property) "array" then
    and_then (member_of (items property)) (fun items_ =>
    and_then (buildFields (items_properties items_)) (fun children =>
    Normal {| group_base := base; group_occurrence := occurrence;
              group_children := children |}))
  else
    Normal {| group_base := base; group_occurrence := occurrence;
              group_children := [] |})).

(** [buildBaseField] (generic.ts, lines 54-85). *)
Definition buildBaseField (uuid : string) (id : string)
    (property : PropertyDefinition) : completion BaseField :=
  base_members uuid id property "text".

End BuildFields.

(** What every diagnostic of a field looks like. *)
Definition field_shaped (d : FieldValidation) : Prop :=
  In (attribute d) field_attributes /\
  property d <> None /\
  (severity d = Some error \/
   severity d = Some warning /\ In (attribute d) warning_attributes).

(** Diagnostics about [rules.dimensions]. *)
Definition touches_dimensions (d : FieldValidation) : bool :=
  has_attribute "rules.dimensions" d || has_attribute "rules.dimensions.min" d
  || has_attribute "rules.dimensions.width" d
  || has_attribute "rules.dimensions.height" d.

(** The attributes written for array fields only (lines 107-185), and
    for image fields only (lines 240-300). *)
Definition array_attributes : list string :=
  ["rules.content.max"; "items"; "items.type"; "items.properties"].

Definition image_attributes : list string :=
  ["image.default.src"; "image.default.alt"; "rules.dimensions";
   "rules.dimensions.min"; "rules.dimensions.width"; "rules.dimensions.height"].

(** What a diagnostic tells about the type of the field it is about. *)
Definition type_of_branch (t : option string) (d : FieldValidation) : Prop :=
  (In (attribute d) array_attributes -> t = Some "array") /\
  (In (attribute d) image_attributes -> t = Some "image") /\
  (attribute d = "link.default.text" -> t = Some "link") /\
  (attribute d = "link.default.label" -> t = Some "button") /\
  (attribute d = "image.default.url" -> t = Some "link" \/ t = Some "button") /\
  (attribute d = "rules.content" -> t = Some "text" \/ t = Some "array").

(** The keys the validator looks for in a default (lines 195-257). *)
Definition default_keys : list string := ["url"; "text"; "label"; "src"; "alt"].

(** Diagnostics about a key of the default. *)
Definition touches_default_keys (d : FieldValidation) : bool :=
  existsb (String.eqb (attribute d))
          ["image.default.url"; "link.default.text"; "link.default.label";
           "image.default.src"; "image.default.alt"].

(** ** Accepted fields *)

Section Accepted.

Variable FieldTypes : list string.

(** The fields on which [validateField] finds nothing to report:
    fully populated but for the minimum of the content rules, which a
    field that is not required may leave out. *)
Inductive accepted_field : PropertyDefinition -> Prop :=
| accepted_field_intro (p : PropertyDefinition) (r : Rules) :
    valid_type FieldTypes (type p) ->
    given_string (name p) ->
    given_string (description p) ->
    rules p = Some r ->
    (required r = Some (VBool true) \/ required r = Some (VBool false)) ->
    (* default *)
    (type p <> Some "array" -> default p <> None) ->
    (type p = Some "link" -> object_with_keys ["url"; "text"] (default p)) ->
    (type p = Some "button" -> object_with_keys ["url"; "label"] (default p)) ->
    (type p = Some "image" -> object_with_keys ["src"; "alt"] (default p)) ->
    (* content *)
    (forall c, content r = Some c ->
               given_number (content_max c) /\
               (required r = Some (VBool true) -> given_number (content_min c))) ->
    (type p = Some "text" -> content r <> None) ->
    (type p = Some "array" ->
     exists c, content r = Some c /\
               at_least_one (content_min c) /\ at_least_one (content_max c)) ->
    (* dimensions *)
    (type p = Some "image" ->
     exists d s, dimensions r = Some d /\ dimensions_min d = Some s /\
                 given_number (width s) /\ given_number (height s)) ->
    (* items *)
    (type p = Some "array" ->
     exists it entries,
       items p = Some it /\ valid_type FieldTypes (items_type it) /\
       items_properties it = Some entries /\
       forall k member, In (k, member) entries -> accepted_field member) ->
    accepted_field p.

(** The components on which [validateModule] finds nothing to report;
    the mapping of properties may be empty. *)
Definition accepted_component (c : HandoffComponent) : Prop :=
  given_string (code c) /\
  given_string (title c) /\
  (exists elements, tags c = Some (VArray elements)) /\
  exists entries,
    properties c = Some entries /\
    forall k p, In (k, p) entries -> accepted_field p.

End Accepted.

(** ** The diagnostics of a component *)

(** The record [validateModule] pushes for the component itself. *)
Definition component_diagnostic (m a : string) : FieldValidation :=
  {| message := m; attribute := a; property := None; severity := None |}.

(** What every diagnostic about the component itself looks like. *)
Definition component_shaped (d : FieldValidation) : Prop :=
  In (attribute d) component_attributes /\ property d = None /\ severity d = None.

(** [d.property === undefined] *)
Definition without_property (d : FieldValidation) : bool :=
  is_undefined (property d).

(** What every diagnostic of the earlier iteration looks like: that of
    a field, and not about a key of the default. *)
Definition earlier_shaped (d : FieldValidation) : Prop :=
  field_shaped d /\ touches_default_keys d = false.

(** Diagnostics about [items]. *)
Definition touches_items (d : FieldValidation) : bool :=
  has_attribute "items" d || has_attribute "items.type" d
  || has_attribute "items.properties" d.

(** ** Further sample inputs *)

(** Rules that say no more than that the field is optional. *)
Definition bare_rules : Rules :=
  {| required := Some (VBool false); content := None; dimensions := None |}.

(** A text field without content rules. *)
Definition teaser : PropertyDefinition :=
  {| type := Some "text";
     name := Some "Teaser";
     description := Some "Teaser line";
     default := Some (VString "Soon");
     rules := Some bare_rules;
     items := None |}.

(** A link field with the given default. *)
Definition call_to_action (d : option value) : PropertyDefinition :=
  {| type := Some "link";
     name := Some "Call to action";
     description := Some "Primary link";
     default := d;
     rules := Some bare_rules;
     items := None |}.

(** An array field without [items]. *)
Definition list_without_items : PropertyDefinition :=
  {| type := Some "array";
     name := Some "Links";
     description := Some "Footer links";
     default := None;
     rules := Some (list_rules (Some 1));
     items := None |}.



(** Helpers that return what they are given, to run the builders on. *)
Definition sample_safeLabel (s : string) : completion string := Normal s.

Definition sample_safeName (o : option string) : completion string :=
  Normal (template o).

Definition sample_parseRequired (o : option Rules) : completion bool :=
  Normal (match o with
          | Some r => strict_eq_bool (required r) true
          | None => false
          end).

Definition sample_buildFields (o : option (list (string * PropertyDefinition)))
  : completion (list string) :=
  Normal (match o with
          | Some entries => map fst entries
          | None => []
          end).

Unset Implicit Arguments.

(** * Properties *)

(** ** Statements *)

Lemma appends_skip : appends skip [].
Proof. intros errors. unfold skip. now rewrite app_nil_r. Qed.

Lemma appends_push d : appends (push d) [d].
Proof. intros errors. reflexivity. Qed.

Lemma appends_then a b oa ob :
  appends a oa -> appends b ob -> appends (a ;; b) (oa ++ ob).
Proof.
  intros Ha Hb errors. unfold then_.
  now rewrite Ha, Hb, app_assoc.
Qed.

Lemma appends_if (c : bool) a b oa ob :
  appends a oa -> appends b ob ->
  appends (if c then a else b) (if c then oa else ob).
Proof. now destruct c. Qed.

Lemma appends_concat_call more : appends (concat_call (Normal more)) more.
Proof. intros errors. reflexivity. Qed.

Lemma appends_returning s out :
  appends s out -> returning_errors s = Normal out.
Proof. intros H. unfold returning_errors. now rewrite H. Qed.

Lemma appends_returning_eq s out out' :
  appends s out -> out = out' -> returning_errors s = Normal out'.
Proof. intros H <-. now apply appends_returning. Qed.

(** The loop over a JSON object, when no call throws. *)
Lemma appends_for_in self entries :
  (forall k member, In (k, member) entries -> exists l, self member k = Normal l) ->
  appends (for_in (fun key member => concat_call (self member key)) entries)
          (loop_output self entries).
Proof.
  induction entries as [| [k member] rest IH]; intros Hcalls.
  - apply appends_skip.
  - cbn [for_in loop_output flat_map fst snd].
    apply appends_then.
    + destruct (Hcalls k member (or_introl eq_refl)) as [l ->].
      apply appends_concat_call.
    + apply IH. intros k' m' Hin. apply Hcalls. now right.
Qed.

Lemma appends_for_in_silent entries :
  appends (for_in (fun _ (_ : PropertyDefinition) => concat_call (Normal [])) entries) [].
Proof.
  induction entries as [| [k member] rest IH]; [apply appends_skip |].
  cbn [for_in]. apply (appends_then _ _ [] [] (appends_concat_call []) IH).
Qed.

Lemma loop_output_silent entries :
  loop_output (fun _ _ => Normal []) entries = [].
Proof. induction entries as [| e rest IH]; [reflexivity | exact IH]. Qed.

Lemma loop_output_nil self entries :
  (forall k member, In (k, member) entries -> self member k = Normal []) ->
  loop_output self entries = [].
Proof.
  induction entries as [| [k member] rest IH]; intros H; [reflexivity |].
  cbn [loop_output flat_map fst snd]. rewrite (H k member (or_introl eq_refl)).
  apply IH. intros k' m' Hin. apply H. now right.
Qed.

(** The guard [if (!o) ... else ... o.member ...] around an object. *)
Lemma appends_unless_missing (A : Type) `{Truthy A} (o : option A) a k oa ok :
  (forall x : A, truthy x = true) ->
  appends a oa ->
  (forall x, o = Some x -> appends (k x) (ok x)) ->
  appends (if negb (truthy o) then a else deref o k)
          (match o with Some x => ok x | None => oa end).
Proof.
  intros Hobj Ha Hk. destruct o as [x |]; cbn.
  - rewrite Hobj. cbn. now apply Hk.
  - exact Ha.
Qed.

(** The guard [if (o) { ... o.member ... }]. *)
Lemma appends_when_present (A : Type) `{Truthy A} (o : option A) b k ob ok :
  (forall x : A, truthy x = true) ->
  (forall x, o = Some x -> appends (k x) (ok x)) ->
  appends b ob ->
  appends (if truthy o then deref o k else b)
          (match o with Some x => ok x | None => ob end).
Proof.
  intros Hobj Hk Hb. destruct o as [x |]; cbn.
  - rewrite Hobj. now apply Hk.
  - exact Hb.
Qed.

(** The guard [if (!d || typeof d !== "object") ... else ... k1 in d ... k2 in d]. *)
Lemma appends_object_shaped d a k1 c1 k2 c2 oa o1 o2 :
  appends a oa ->
  (forall b, appends (c1 b) (o1 b)) ->
  (forall b, appends (c2 b) (o2 b)) ->
  appends (if negb (truthy d) || negb (String.eqb (typeof d) "object") then a
           else js_in k1 d c1 ;; js_in k2 d c2)
          (if negb (truthy d) || negb (String.eqb (typeof d) "object") then oa
           else o1 (has_key k1 d) ++ o2 (has_key k2 d)).
Proof.
  intros Ha H1 H2.
  destruct d as [[] |]; cbn; rewrite ?orb_true_r; try exact Ha;
    apply appends_then; auto.
Qed.

(** Symbolic execution of the validator's statements: the diagnostics a
    statement adds are read off its text, guard by guard. *)
Ltac appends_step :=
  lazymatch goal with
  | |- appends skip _ => apply appends_skip
  | |- appends (push _) _ => apply appends_push
  | |- appends (_ ;; _) _ => eapply appends_then
  | |- appends (if negb (truthy ?o) then _ else deref ?o _) _ =>
      eapply appends_unless_missing; [reflexivity | | intros ? ?; cbv beta]
  | |- appends (if truthy ?o then deref ?o _ else _) _ =>
      eapply appends_when_present; [reflexivity | intros ? ?; cbv beta | ]
  | |- appends (if _ || _ then _ else js_in _ _ _ ;; js_in _ _ _) _ =>
      eapply appends_object_shaped; [ | intros ?; cbv beta | intros ?; cbv beta]
  | |- appends (if _ then _ else _) _ => eapply appends_if
  | |- appends (for_in (fun _ _ => concat_call (Normal [])) _) _ =>
      apply appends_for_in_silent
  | |- appends (for_in _ _) _ => eapply appends_for_in
  end.

Ltac run_statements := cbv beta zeta; repeat appends_step.

Ltac unfold_validator := unfold fieldDiagnostics, validateModule, validateField_body.

(** Turns [H : fieldDiagnostics p key = Normal own] into an equation
    giving [own] as a function of the guards. *)
Ltac run_own H :=
  unfold fieldDiagnostics, validateField_body in H;
  erewrite appends_returning in H by run_statements;
  injection H as H; symmetry in H.

(** ** Values and lists *)

Lemma strict_eq_string_true o s : strict_eq_string o s = true -> o = Some s.
Proof.
  destruct o as [s' |]; [| discriminate]. cbn.
  intros H. apply String.eqb_eq in H. now subst.
Qed.

Lemma strict_eq_string_false o s : strict_eq_string o s = false -> o <> Some s.
Proof.
  intros H ->. cbn in H. now rewrite String.eqb_refl in H.
Qed.

Lemma strict_eq_bool_true o b : strict_eq_bool o b = true <-> o = Some (VBool b).
Proof.
  destruct o as [[] |]; cbn; try (split; intros; discriminate).
  rewrite Bool.eqb_true_iff. split; intros H; [now subst | now injection H].
Qed.

Lemma not_truthy_number (o : option Z) :
  truthy o = false <-> o = None \/ o = Some 0.
Proof.
  destruct o as [n |]; [| cbn; intuition].
  change (truthy (Some n)) with (negb (Z.eqb n 0)).
  rewrite negb_false_iff, Z.eqb_eq.
  split; [intros ->; now right | intros [H | H]; [discriminate | now injection H]].
Qed.

Lemma truthy_given_string o : given_string o -> truthy o = true.
Proof.
  intros [s [-> Hs]]. change (truthy (Some s)) with (negb (String.eqb s EmptyString)).
  apply negb_true_iff. now apply String.eqb_neq.
Qed.

Lemma truthy_given_number o : given_number o -> truthy o = true.
Proof.
  intros [n [-> Hn]]. change (truthy (Some n)) with (negb (Z.eqb n 0)).
  apply negb_true_iff. now apply Z.eqb_neq.
Qed.

Lemma at_least_one_checks o :
  at_least_one o -> truthy o = true /\ lt_one o = false.
Proof.
  intros [n [-> Hn]]. split.
  - apply truthy_given_number. exists n. split; [reflexivity | lia].
  - cbn [lt_one]. apply Z.ltb_ge. exact Hn.
Qed.

Lemma indexOf_lower_bound l x : -1 <= indexOf l x.
Proof.
  induction l as [| s rest IH]; cbn [indexOf]; [lia |].
  destruct (strict_eq_string x s); [lia |].
  destruct (Z.eqb_spec (indexOf rest x) (-1)); lia.
Qed.

Lemma indexOf_found l t : In t l -> Z.eqb (indexOf l (Some t)) (-1) = false.
Proof.
  intros Hin. apply Z.eqb_neq.
  induction l as [| s rest IH]; [destruct Hin |].
  cbn [indexOf strict_eq_string].
  destruct (String.eqb_spec t s) as [-> | Hneq]; [lia |].
  destruct Hin as [-> | Hin]; [contradiction |].
  specialize (IH Hin). pose proof (indexOf_lower_bound rest (Some t)).
  destruct (Z.eqb_spec (indexOf rest (Some t)) (-1)); lia.
Qed.

Lemma object_with_keys_checks ks o :
  object_with_keys ks o ->
  negb (truthy o) || negb (String.eqb (typeof o) "object") = false /\
  forall k, In k ks -> has_key k o = true.
Proof.
  intros [members [-> Hkeys]]. split; [reflexivity |].
  intros k Hk. cbn [has_key has_property].
  apply existsb_exists. specialize (Hkeys k Hk).
  apply in_map_iff in Hkeys. destruct Hkeys as [m [Hm Hin]].
  exists m. split; [exact Hin |]. rewrite Hm. apply String.eqb_refl.
Qed.

Lemma filter_if (A : Type) (f : A -> bool) (c : bool) (a b : list A) :
  filter f (if c then a else b) = if c then filter f a else filter f b.
Proof. now destruct c. Qed.

Lemma app_both_nil (A : Type) (a b : list A) : a = [] -> b = [] -> a ++ b = [].
Proof. now intros -> ->. Qed.

(** [filter f l = []] when no diagnostic that [l] may hold passes [f]:
    the cases of the guards are walked one by one. *)
Ltac filter_nil :=
  lazymatch goal with
  | |- filter _ (_ ++ _) = [] => rewrite filter_app; apply app_both_nil; filter_nil
  | |- filter _ (if ?c then _ else _) = [] => destruct c; filter_nil
  | |- filter _ (match ?o with Some _ => _ | None => _ end) = [] =>
      destruct o; filter_nil
  | |- _ => reflexivity
  end.

Ltac select_diagnostics :=
  repeat first
    [ match goal with
      | |- context [filter ?f ?l] =>
          let H := fresh in
          assert (H : filter f l = []) by filter_nil;
          rewrite H; clear H
      end
    | rewrite filter_app
    | rewrite filter_if ];
  cbn [filter app has_attribute has_severity attribute severity
       String.eqb Ascii.eqb Bool.eqb andb orb negb];
  rewrite ?app_nil_r.

Ltac forall_diagnostics :=
  lazymatch goal with
  | |- Forall _ (_ ++ _) => apply Forall_app; split; forall_diagnostics
  | |- Forall _ (if ?c then _ else _) => destruct c; forall_diagnostics
  | |- Forall _ (match ?o with Some _ => _ | None => _ end) =>
      destruct o; forall_diagnostics
  | |- Forall _ [] => constructor
  | |- Forall _ (_ :: _) => constructor; [reflexivity | forall_diagnostics]
  end.

(** ** Property trees *)

(** Induction on a property tree: the hypothesis is available for every
    entry of [items.properties]. *)
Lemma PropertyDefinition_tree_ind (P : PropertyDefinition -> Prop) :
  (forall p,
      (forall it entries, items p = Some it -> items_properties it = Some entries ->
                          forall k member, In (k, member) entries -> P member) ->
      P p) ->
  forall p, P p.
Proof.
  intros step. fix IH 1. intros [t n d df r oit].
  assert (Hentries : forall it entries,
             oit = Some it -> items_properties it = Some entries ->
             forall k member, In (k, member) entries -> P member).
  { destruct oit as [[ty [entries0 |]] |]; try discriminate.
    - assert (Hall : forall k member, In (k, member) entries0 -> P member).
      { clear step. revert entries0. fix IHentries 1.
        intros [| [k0 m0] rest] k member Hin.
        - destruct Hin.
        - destruct Hin as [E | Hin].
          + injection E as <- <-. apply IH.
          + exact (IHentries rest k member Hin). }
      intros it entries E1 E2. injection E1 as <-. injection E2 as <-. exact Hall.
    - intros it entries E1 E2. injection E1 as <-. discriminate E2. }
  apply step. exact Hentries.
Qed.

(** ** Deciding full population *)

Lemma given_stringb_sound o : given_stringb o = true -> given_string o.
Proof.
  destruct o as [s |]; [| discriminate]. cbn. intros H.
  exists s. split; [reflexivity |].
  now apply String.eqb_neq, negb_true_iff.
Qed.

Lemma given_numberb_sound o : given_numberb o = true -> given_number o.
Proof.
  destruct o as [n |]; [| discriminate]. cbn. intros H.
  exists n. split; [reflexivity |].
  now apply Z.eqb_neq, negb_true_iff.
Qed.

Lemma at_least_oneb_sound o : at_least_oneb o = true -> at_least_one o.
Proof.
  destruct o as [n |]; [| discriminate]. cbn. intros H.
  exists n. split; [reflexivity |]. now apply Z.leb_le.
Qed.

Lemma object_with_keysb_sound ks o :
  object_with_keysb ks o = true -> object_with_keys ks o.
Proof.
  destruct o as [[] |]; try discriminate. cbn. intros H.
  eexists. split; [reflexivity |]. intros k Hk.
  rewrite forallb_forall in H. specialize (H k Hk).
  apply existsb_exists in H. destruct H as [m [Hin Hm]].
  apply String.eqb_eq in Hm. subst k. now apply in_map.
Qed.

Lemma valid_typeb_sound FieldTypes o :
  valid_typeb FieldTypes o = true -> valid_type FieldTypes o.
Proof.
  destruct o as [t |]; [| discriminate]. cbn. intros H.
  apply andb_true_iff in H. destruct H as [Ht Hin].
  exists t. split; [reflexivity |]. split.
  - now apply String.eqb_neq, negb_true_iff.
  - apply existsb_exists in Hin. destruct Hin as [t' [Hin Heq]].
    apply String.eqb_eq in Heq. now subst t'.
Qed.

Lemma implb_strict_eq_string o t (b : bool) :
  implb (strict_eq_string o t) b = true -> o = Some t -> b = true.
Proof.
  intros H ->. cbn in H. now rewrite String.eqb_refl in H.
Qed.

Lemma valid_fieldb_sound FieldTypes p :
  valid_fieldb FieldTypes p = true -> valid_field FieldTypes p.
Proof.
  induction p as [p IH] using PropertyDefinition_tree_ind.
  destruct p as [ty nm descr dflt rls itms]. cbn [valid_fieldb type name description
                                               default rules items] in *.
  intros H.
  destruct rls as [r |]; [| now rewrite !andb_false_r in H].
  repeat match goal with
         | Hp : _ && _ = true |- _ => apply andb_true_iff in Hp; destruct Hp
         end.
  apply valid_field_intro with (r := r); cbn [type name description default rules items].
  - now apply valid_typeb_sound.
  - now apply given_stringb_sound.
  - now apply given_stringb_sound.
  - reflexivity.
  - destruct (required r) as [[| [] | | | |] |]; try discriminate; auto.
  - intros Hty Hd. subst dflt.
    match goal with
    | Hp : _ || is_given None = true |- _ =>
        rewrite orb_false_r in Hp; apply strict_eq_string_true in Hp
    end.
    contradiction.
  - intros Hty. eapply object_with_keysb_sound, implb_strict_eq_string; eassumption.
  - intros Hty. eapply object_with_keysb_sound, implb_strict_eq_string; eassumption.
  - intros Hty. eapply object_with_keysb_sound, implb_strict_eq_string; eassumption.
  - intros c Hc.
    match goal with
    | Hp : match content r with _ => _ end = true |- _ =>
        rewrite Hc in Hp; apply andb_true_iff in Hp; destruct Hp
    end.
    split; now apply given_numberb_sound.
  - intros Hty Hc.
    match goal with
    | Hp : implb (strict_eq_string ty "text") _ = true |- _ =>
        apply (implb_strict_eq_string _ _ _ Hp) in Hty
    end.
    rewrite Hc in Hty. discriminate Hty.
  - intros Hty.
    match goal with
    | Hp : implb (strict_eq_string ty "array") (match content r with _ => _ end) = true |- _ =>
        pose proof (implb_strict_eq_string _ _ _ Hp Hty) as Hc
    end.
    destruct (content r) as [c |]; [| discriminate].
    apply andb_true_iff in Hc. destruct Hc.
    exists c. split; [reflexivity |]. split; now apply at_least_oneb_sound.
  - intros Hty.
    match goal with
    | Hp : implb (strict_eq_string ty "image") (match dimensions r with _ => _ end) = true |- _ =>
        pose proof (implb_strict_eq_string _ _ _ Hp Hty) as Hd
    end.
    destruct (dimensions r) as [d |]; [| discriminate].
    destruct (dimensions_min d) as [s |] eqn:Hs; [| discriminate].
    apply andb_true_iff in Hd. destruct Hd.
    exists d, s. split; [reflexivity |]. split; [exact Hs |].
    split; now apply given_numberb_sound.
  - intros Hty.
    match goal with
    | Hp : implb (strict_eq_string ty "array") (match itms with _ => _ end) = true |- _ =>
        pose proof (implb_strict_eq_string _ _ _ Hp Hty) as Hi
    end.
    destruct itms as [it |]; [| discriminate].
    apply andb_true_iff in Hi. destruct Hi as [Hit Hentries].
    destruct (items_properties it) as [entries |] eqn:He; [| discriminate].
    exists it, entries. split; [reflexivity |].
    split; [now apply valid_typeb_sound |]. split; [exact He |].
    intros k member Hin. apply (IH it entries eq_refl He k member Hin).
    rewrite forallb_forall in Hentries. exact (Hentries (k, member) Hin).
Qed.

Lemma valid_componentb_sound FieldTypes c :
  valid_componentb FieldTypes c = true -> valid_component FieldTypes c.
Proof.
  unfold valid_componentb. intros H.
  repeat match goal with
         | Hp : _ && _ = true |- _ => apply andb_true_iff in Hp; destruct Hp
         end.
  split; [now apply given_stringb_sound |]. split; [now apply given_stringb_sound |].
  split.
  - destruct (tags c) as [[] |]; try discriminate. eexists. reflexivity.
  - destruct (properties c) as [entries |]; [| discriminate].
    match goal with
    | Hp : _ && _ = true |- _ => apply andb_true_iff in Hp; destruct Hp
    end.
    exists entries. split; [reflexivity |]. split.
    + intros ->. match goal with Hne : negb _ = true |- _ => discriminate Hne end.
    + intros k p Hin. apply valid_fieldb_sound.
      match goal with
      | Hall : forallb _ _ = true |- _ =>
          rewrite forallb_forall in Hall; exact (Hall (k, p) Hin)
      end.
Qed.

(** ** The field validator *)

Section Properties.

Variable FieldTypes : list string.

Local Abbreviation validateField := (validateField FieldTypes).
Local Abbreviation fieldDiagnostics := (fieldDiagnostics FieldTypes).
Local Abbreviation validateModule := (validateModule FieldTypes).
Local Abbreviation valid_type := (valid_type FieldTypes).
Local Abbreviation valid_field := (valid_field FieldTypes).
Local Abbreviation valid_component := (valid_component FieldTypes).

Lemma validateField_unfold p key :
  validateField p key = validateField_body FieldTypes validateField p key.
Proof. destruct p; reflexivity. Qed.

(** The validator returns its own diagnostics followed by those of the
    entries of [items.properties], and never throws. *)
Lemma validateField_own_nested p :
  forall key, exists own,
    fieldDiagnostics p key = Normal own /\
    validateField p key = Normal (own ++ loop_output validateField (nested_entries p)).
Proof.
  induction p as [p IH] using PropertyDefinition_tree_ind. intros key.
  eexists. split.
  { unfold_validator.
    apply appends_returning. run_statements. }
  rewrite validateField_unfold. unfold validateField_body.
  eapply appends_returning_eq.
  { run_statements. intros k member Hin.
    match goal with
    | Hit : items p = Some ?it, He : items_properties ?it = Some _ |- _ =>
        destruct (IH _ _ Hit He k member Hin k) as [own [_ Hcall]]
    end.
    eexists. exact Hcall. }
  unfold nested_entries.
  destruct (strict_eq_string (type p) "array") eqn:Harray.
  - apply strict_eq_string_true in Harray. rewrite Harray.
    destruct (rules p) as [r |]; [| cbn; now rewrite app_nil_r].
    destruct (items p) as [it |]; [| cbn; now rewrite !app_nil_r].
    destruct (items_properties it) as [entries |]; [| cbn; now rewrite !app_nil_r].
    cbn -[append]. rewrite ?app_nil_r, <- ?app_assoc. reflexivity.
  - cbn. rewrite !app_nil_r.
    destruct (rules p) as [r |]; reflexivity.
Qed.

(** Every diagnostic of a field carries the field's key. *)
Lemma own_property p key own :
  fieldDiagnostics p key = Normal own ->
  Forall (fun d => property d = Some key) own.
Proof.
  intros Hown. run_own Hown. subst own. forall_diagnostics.
Qed.

Lemma type_missing_reported p key :
  type p = None ->
  In (field_diagnostic "Field type is required" "type" key error)
     (returned (validateField p key)).
Proof.
  intros Htype.
  destruct (validateField_own_nested p key) as [own [Hown Hall]].
  rewrite Hall. cbn [returned]. apply in_or_app. left.
  run_own Hown. subst own. rewrite Htype. cbn [truthy truthy_option negb].
  apply in_or_app. left. now left.
Qed.

(** The diagnostics about [rules.content]: the two generic warnings
    first, then what the type asks for. *)
Lemma content_diagnostics p key r c own :
  rules p = Some r -> content r = Some c ->
  fieldDiagnostics p key = Normal own ->
  exists specific,
    filter touches_content own =
      (if negb (truthy (content_min c)) && strict_eq_bool (required r) true
       then [field_diagnostic "Content rules must have a minimum length"
                              "rules.content.min" key warning]
       else [])
      ++ (if negb (truthy (content_max c))
          then [field_diagnostic "Content rules must have a maximum length"
                                 "rules.content.min" key warning]
          else [])
      ++ specific /\
    Forall (fun d => severity d = Some error) specific.
Proof.
  intros Hrules Hcontent Hown.
  run_own Hown. rewrite Hrules in Hown. cbv beta iota in Hown.
  rewrite Hcontent in Hown. cbv beta iota in Hown.
  cbn [truthy truthy_option truthy_ContentRules negb] in Hown.
  eexists. split.
  - etransitivity;
      [ rewrite Hown; unfold touches_content; select_diagnostics;
        rewrite <- app_assoc; reflexivity
      | reflexivity ].
  - forall_diagnostics.
Qed.

(** The errors labelled [rules.content.min] of an array field. *)
Lemma min_error_array_fields p key r c own :
  type p = Some "array" -> rules p = Some r -> content r = Some c ->
  fieldDiagnostics p key = Normal own ->
  filter min_error own =
    (if negb (truthy (content_min c)) then
       [field_diagnostic "Array fields must have a minimum content length"
                         "rules.content.min" key error]
     else if lt_one (content_min c) then
       [field_diagnostic "Array fields must have a maximum content length"
                         "rules.content.min" key error]
     else [])
    ++ (if negb (truthy (content_max c)) then
          [field_diagnostic "Content rules must have a maximum length"
                            "rules.content.min" key error]
        else []).
Proof.
  intros Htype Hrules Hcontent Hown.
  run_own Hown. rewrite Hrules in Hown. cbv beta iota in Hown.
  rewrite Hcontent, Htype in Hown. cbv beta iota in Hown.
  cbn [truthy truthy_option truthy_ContentRules negb] in Hown.
  rewrite Hown. unfold min_error. select_diagnostics.
  reflexivity.
Qed.

(** The diagnostics labelled [rules.content.max]. *)
Lemma max_attribute_diagnostics p key r c own :
  rules p = Some r -> content r = Some c ->
  fieldDiagnostics p key = Normal own ->
  filter (has_attribute "rules.content.max") own =
    if strict_eq_string (type p) "array" then
      if negb (truthy (content_max c)) then []
      else if lt_one (content_max c) then
        [field_diagnostic "Content rules maximum length must be greater than 0"
                          "rules.content.max" key error]
      else []
    else [].
Proof.
  intros Hrules Hcontent Hown.
  run_own Hown. rewrite Hrules in Hown. cbv beta iota in Hown.
  rewrite Hcontent in Hown. cbv beta iota in Hown.
  cbn [truthy truthy_option truthy_ContentRules negb] in Hown.
  rewrite Hown. select_diagnostics.
  destruct (strict_eq_string (type p) "array"); [| reflexivity].
  destruct (negb (truthy (content_max c))); reflexivity.
Qed.

Lemma valid_type_checks o :
  valid_type o -> truthy o = true /\ Z.eqb (indexOf FieldTypes o) (-1) = false.
Proof.
  intros [t [-> [Ht Hin]]]. split.
  - apply truthy_given_string. now exists t.
  - now apply indexOf_found.
Qed.

(** A fully populated field passes every guard. *)
Lemma valid_field_own p key own :
  valid_field p ->
  fieldDiagnostics p key = Normal own ->
  own = [].
Proof.
  intros Hvalid Hown. run_own Hown. subst own.
  destruct Hvalid as [p r Htype Hname Hdescription Hrules Hrequired
                        Hdefault Hlink Hbutton Himage
                        Hpopulated Htext Harray Hdimensions Hitems].
  destruct (valid_type_checks _ Htype) as [-> ->].
  rewrite (truthy_given_string _ Hname), (truthy_given_string _ Hdescription).
  rewrite Hrules. cbv beta iota. cbn [negb app].
  repeat apply app_both_nil.
  - (* default, lines 54-61 *)
    destruct (strict_eq_string (type p) "array") eqn:E.
    + cbn [negb]. now rewrite andb_false_r.
    + apply strict_eq_string_false in E. specialize (Hdefault E).
      destruct (default p); [reflexivity | contradiction].
  - (* rules.required, lines 71-78 *)
    destruct Hrequired as [-> | ->]; reflexivity.
  - (* rules.content, lines 79-96 *)
    destruct (content r) as [c |] eqn:Hc; [| reflexivity].
    destruct (Hpopulated c eq_refl) as [Hmin Hmax].
    now rewrite (truthy_given_number _ Hmin), (truthy_given_number _ Hmax).
  - (* text, lines 97-106 *)
    destruct (strict_eq_string (type p) "text") eqn:E; [| reflexivity].
    apply strict_eq_string_true in E. specialize (Htext E).
    destruct (content r); [reflexivity | contradiction].
  - (* array, lines 107-185 *)
    destruct (strict_eq_string (type p) "array") eqn:E; [| reflexivity].
    apply strict_eq_string_true in E.
    destruct (Harray E) as [c [-> [Hmin Hmax]]].
    destruct (Hitems E) as [it [entries [-> [Hty [-> _]]]]].
    destruct (at_least_one_checks _ Hmin) as [-> ->].
    destruct (at_least_one_checks _ Hmax) as [-> ->].
    destruct (valid_type_checks _ Hty) as [-> ->].
    reflexivity.
  - (* link, lines 186-212 *)
    destruct (strict_eq_string (type p) "link") eqn:E; [| reflexivity].
    apply strict_eq_string_true in E.
    destruct (object_with_keys_checks _ _ (Hlink E)) as [-> Hkeys].
    rewrite !Hkeys by (cbn [In]; tauto). reflexivity.
  - (* button, lines 213-239 *)
    destruct (strict_eq_string (type p) "button") eqn:E; [| reflexivity].
    apply strict_eq_string_true in E.
    destruct (object_with_keys_checks _ _ (Hbutton E)) as [-> Hkeys].
    rewrite !Hkeys by (cbn [In]; tauto). reflexivity.
  - (* image, lines 240-300 *)
    destruct (strict_eq_string (type p) "image") eqn:E; [| reflexivity].
    apply strict_eq_string_true in E.
    destruct (object_with_keys_checks _ _ (Himage E)) as [-> Hkeys].
    rewrite !Hkeys by (cbn [In]; tauto).
    destruct (Hdimensions E) as [d [s [-> [-> [Hwidth Hheight]]]]].
    now rewrite (truthy_given_number _ Hwidth), (truthy_given_number _ Hheight).
Qed.

Lemma valid_field_no_diagnostics p :
  valid_field p -> forall key, validateField p key = Normal [].
Proof.
  induction p as [p IH] using PropertyDefinition_tree_ind. intros Hvalid key.
  destruct (validateField_own_nested p key) as [own [Hown Hall]].
  rewrite Hall, (valid_field_own p key own Hvalid Hown). cbn [app]. f_equal.
  apply loop_output_nil. intros k member Hin.
  unfold nested_entries in Hin.
  destruct (strict_eq_string (type p) "array") eqn:E; [| destruct Hin].
  apply strict_eq_string_true in E.
  destruct Hvalid as [p r _ _ _ _ _ _ _ _ _ _ _ _ _ Hitems].
  destruct (Hitems E) as [it [entries [Hit [_ [Hentries Hmembers]]]]].
  rewrite Hit, Hentries in Hin.
  destruct (truthy (rules p)); [| destruct Hin].
  cbn [andb] in Hin.
  apply (IH it entries Hit Hentries k member Hin).
  exact (Hmembers k member Hin).
Qed.

(** ** The claims *)

(** C1: a component with a code, a title, array-valued tags and a
    non-empty properties mapping whose fields are all fully populated
    ([valid_component]) is validated to the empty list of diagnostics. *)
Theorem valid_component_no_diagnostics c :
  valid_component c -> validateModule c = Normal [].
Proof.
  intros [Hcode [Htitle [[elements Htags] [entries [Hproperties [_ Hfields]]]]]].
  unfold_validator. apply appends_returning_eq with
    (out := [] ++ [] ++ [] ++ loop_output validateField entries).
  - rewrite (truthy_given_string _ Hcode), (truthy_given_string _ Htitle).
    rewrite Htags, Hproperties. cbn [truthy truthy_option truthy_value truthy_properties
                                    isArray negb deref].
    run_statements.
    intros k member Hin. exists []. apply valid_field_no_diagnostics.
    exact (Hfields k member Hin).
  - cbn [app]. apply loop_output_nil. intros k member Hin.
    apply valid_field_no_diagnostics. exact (Hfields k member Hin).
Qed.

(** C2: for a property with a rules object, the diagnostics the field
    receives for itself hold an entry with attribute "rules.required"
    exactly when [rules.required] is neither the boolean true nor the
    boolean false, and then it is the one error of line 72; with
    [required] true or false there is none. *)
Theorem required_must_be_boolean p key r :
  rules p = Some r ->
  exists own,
    fieldDiagnostics p key = Normal own /\
    validateField p key = Normal (own ++ loop_output validateField (nested_entries p)) /\
    (required r = Some (VBool true) \/ required r = Some (VBool false) ->
     filter (has_attribute "rules.required") own = []) /\
    (required r <> Some (VBool true) -> required r <> Some (VBool false) ->
     filter (has_attribute "rules.required") own =
     [field_diagnostic "Field rules.required is required" "rules.required" key error]).
Proof.
  intros Hrules.
  destruct (validateField_own_nested p key) as [own [Hown Hall]].
  exists own. split; [exact Hown |]. split; [exact Hall |]. clear Hall.
  run_own Hown. subst own. rewrite Hrules. cbv beta iota.
  select_diagnostics. split.
  - intros [H | H]; rewrite H; reflexivity.
  - intros Htrue Hfalse.
    destruct (strict_eq_bool (required r) false) eqn:E1;
      [apply strict_eq_bool_true in E1; contradiction |].
    destruct (strict_eq_bool (required r) true) eqn:E2;
      [apply strict_eq_bool_true in E2; contradiction |].
    reflexivity.
Qed.

(** C3: for a property without a default, the field's own diagnostics
    hold the warning with attribute "default" exactly when the type is
    not "array"; an array field gets no such warning. *)
Theorem default_missing_warning p key :
  default p = None ->
  exists own,
    fieldDiagnostics p key = Normal own /\
    validateField p key = Normal (own ++ loop_output validateField (nested_entries p)) /\
    (type p = Some "array" ->
     filter (fun d => has_attribute "default" d && has_severity warning d) own = []) /\
    (type p <> Some "array" ->
     filter (fun d => has_attribute "default" d && has_severity warning d) own =
     [field_diagnostic "Field default is required" "default" key warning]).
Proof.
  intros Hdefault.
  destruct (validateField_own_nested p key) as [own [Hown Hall]].
  exists own. split; [exact Hown |]. split; [exact Hall |]. clear Hall.
  run_own Hown. subst own. rewrite Hdefault.
  select_diagnostics. cbn [is_undefined]. split.
  - intros ->. reflexivity.
  - intros Htype.
    destruct (strict_eq_string (type p) "array") eqn:E;
      [apply strict_eq_string_true in E; contradiction |].
    reflexivity.
Qed.

(** C4 (amended): for an array field that has a rules object, a nested
    field of [items.properties] without a type is reported as an error
    with attribute "type" under the nested field's own key; the result
    is the array's own diagnostics (all under the array's key) followed
    by the flat concatenation of the nested results. *)
Theorem nested_type_diagnostic p key r it entries k member :
  type p = Some "array" ->
  rules p = Some r ->
  items p = Some it ->
  items_properties it = Some entries ->
  In (k, member) entries ->
  type member = None ->
  exists own nested,
    validateField p key = Normal (own ++ nested) /\
    fieldDiagnostics p key = Normal own /\
    Forall (fun d => property d = Some key) own /\
    nested = flat_map (fun e => returned (validateField (snd e) (fst e))) entries /\
    In (field_diagnostic "Field type is required" "type" k error) nested.
Proof.
  intros Htype Hrules Hitems Hentries Hin Hmissing.
  destruct (validateField_own_nested p key) as [own [Hown Hall]].
  exists own. eexists. split; [| split; [exact Hown | split; [| split; [reflexivity |]]]].
  - rewrite Hall. unfold nested_entries, loop_output.
    rewrite Htype, Hrules, Hitems, Hentries. reflexivity.
  - exact (own_property p key own Hown).
  - apply in_flat_map. exists (k, member). split; [exact Hin |].
    exact (type_missing_reported member k Hmissing).
Qed.

(** C5: for an array field with a [rules.content] object, a minimum
    below one, in particular 0 and -1, yields an error with attribute
    "rules.content.min"; for 0 it is the diagnostic of an absent
    minimum. *)
Theorem array_min_below_one p key r c n :
  type p = Some "array" ->
  rules p = Some r ->
  content r = Some c ->
  content_min c = Some n ->
  n < 1 ->
  exists diagnostics,
    validateField p key = Normal diagnostics /\
    In (field_diagnostic
          (if Z.eqb n 0 then "Array fields must have a minimum content length"
           else "Array fields must have a maximum content length")
          "rules.content.min" key error)
       diagnostics.
Proof.
  intros Htype Hrules Hcontent Hmin Hn.
  destruct (validateField_own_nested p key) as [own [Hown Hall]].
  eexists. split; [exact Hall |].
  apply in_or_app. left.
  apply (proj1 (filter_In min_error _ own)).
  rewrite (min_error_array_fields p key r c own Htype Hrules Hcontent Hown), Hmin.
  apply in_or_app. left.
  change (truthy (Some n)) with (negb (Z.eqb n 0)).
  destruct (Z.eqb n 0); cbn [negb]; [now left |].
  cbn [lt_one]. destruct (Z.ltb_spec n 1); [now left | lia].
Qed.

(** C6: for a property with a [rules.content] object, among the
    field's own diagnostics the minimum warning is present exactly when
    the minimum is missing and [rules.required === true], the maximum
    warning exactly when the maximum is missing, whatever the type; both
    come before the errors of the type-specific content checks. *)
Theorem content_bounds_warnings p key r c :
  rules p = Some r ->
  content r = Some c ->
  let min_warning :=
    field_diagnostic "Content rules must have a minimum length"
                     "rules.content.min" key warning in
  let max_warning :=
    field_diagnostic "Content rules must have a maximum length"
                     "rules.content.min" key warning in
  exists own specific,
    fieldDiagnostics p key = Normal own /\
    validateField p key = Normal (own ++ loop_output validateField (nested_entries p)) /\
    filter touches_content own =
      (if negb (truthy (content_min c)) && strict_eq_bool (required r) true
       then [min_warning] else [])
      ++ (if negb (truthy (content_max c)) then [max_warning] else [])
      ++ specific /\
    Forall (fun d => severity d = Some error) specific /\
    (In min_warning own <->
     (content_min c = None \/ content_min c = Some 0) /\ required r = Some (VBool true)) /\
    (In max_warning own <-> content_max c = None \/ content_max c = Some 0).
Proof.
  intros Hrules Hcontent min_warning max_warning.
  destruct (validateField_own_nested p key) as [own [Hown Hall]].
  destruct (content_diagnostics p key r c own Hrules Hcontent Hown)
    as [specific [Hsel Herrors]].
  exists own, specific.
  split; [exact Hown |]. split; [exact Hall |]. clear Hall.
  split; [exact Hsel |]. split; [exact Herrors |].
  assert (Hin : forall d, touches_content d = true ->
                  (In d own <-> In d (filter touches_content own))).
  { intros d Hd. rewrite filter_In. tauto. }
  rewrite (Hin min_warning eq_refl), (Hin max_warning eq_refl), Hsel, !in_app_iff.
  rewrite Forall_forall in Herrors.
  split.
  - split.
    + intros [H | [H | H]].
      * destruct (negb (truthy (content_min c)) && strict_eq_bool (required r) true) eqn:E;
          [| destruct H].
        apply andb_true_iff in E. destruct E as [E1 E2].
        apply negb_true_iff, not_truthy_number in E1.
        apply strict_eq_bool_true in E2. tauto.
      * destruct (negb (truthy (content_max c))); [| destruct H].
        destruct H as [H | []]. discriminate H.
      * apply Herrors in H. discriminate H.
    + intros [Hmin Hreq]. left.
      apply not_truthy_number in Hmin. apply strict_eq_bool_true in Hreq.
      rewrite Hmin, Hreq. now left.
  - split.
    + intros [H | [H | H]].
      * destruct (negb (truthy (content_min c)) && strict_eq_bool (required r) true);
          [| destruct H].
        destruct H as [H | []]. discriminate H.
      * destruct (negb (truthy (content_max c))) eqn:E; [| destruct H].
        now apply negb_true_iff, not_truthy_number in E.
      * apply Herrors in H. discriminate H.
    + intros Hmax. right. left.
      apply not_truthy_number in Hmax. rewrite Hmax. now left.
Qed.

(** C7 (amended): for an array field with a [rules.content] object, the
    error for an absent (or zero) minimum and the error for a minimum
    below one carry the same attribute, severity and key, and different
    messages. *)
Theorem array_min_messages p key r c :
  type p = Some "array" ->
  rules p = Some r ->
  content r = Some c ->
  let absent :=
    field_diagnostic "Array fields must have a minimum content length"
                     "rules.content.min" key error in
  let below :=
    field_diagnostic "Array fields must have a maximum content length"
                     "rules.content.min" key error in
  exists own,
    fieldDiagnostics p key = Normal own /\
    validateField p key = Normal (own ++ loop_output validateField (nested_entries p)) /\
    (content_min c = None \/ content_min c = Some 0 ->
     In absent own /\ ~ In below own) /\
    (forall n, content_min c = Some n -> n <> 0 -> n < 1 ->
               In below own /\ ~ In absent own) /\
    message absent <> message below /\
    attribute absent = attribute below /\
    severity absent = severity below /\
    property absent = property below.
Proof.
  intros Htype Hrules Hcontent absent below.
  destruct (validateField_own_nested p key) as [own [Hown Hall]].
  exists own. split; [exact Hown |]. split; [exact Hall |]. clear Hall.
  assert (Hin : forall d, min_error d = true ->
                  (In d own <-> In d (filter min_error own))).
  { intros d Hd. rewrite filter_In. tauto. }
  pose proof (min_error_array_fields p key r c own Htype Hrules Hcontent Hown) as Hsel.
  assert (Hmax : ~ In absent (if negb (truthy (content_max c)) then
                    [field_diagnostic "Content rules must have a maximum length"
                                      "rules.content.min" key error] else []) /\
                 ~ In below (if negb (truthy (content_max c)) then
                    [field_diagnostic "Content rules must have a maximum length"
                                      "rules.content.min" key error] else [])).
  { destruct (negb (truthy (content_max c))); split; intros H;
      try destruct H as [H | []]; try discriminate H; destruct H. }
  destruct Hmax as [Hmax1 Hmax2].
  split; [| split; [| repeat split; discriminate]].
  - intros H. rewrite (Hin absent eq_refl), (Hin below eq_refl), Hsel, !in_app_iff.
    apply not_truthy_number in H. rewrite H. split.
    + left. now left.
    + intros [Hb | Hb]; [| tauto]. destruct Hb as [Hb | []]. discriminate Hb.
  - intros n H Hn0 Hn1.
    rewrite (Hin absent eq_refl), (Hin below eq_refl), Hsel, !in_app_iff, H.
    change (truthy (Some n)) with (negb (Z.eqb n 0)).
    destruct (Z.eqb_spec n 0); [contradiction |]. cbn [negb lt_one].
    destruct (Z.ltb_spec n 1); [| lia]. split.
    + left. now left.
    + intros [Ha | Ha]; [| tauto]. destruct Ha as [Ha | []]. discriminate Ha.
Qed.

(** C8: for every property tree the field validator returns normally:
    no member is read below a missing object, and the result is the
    field's own diagnostics followed by the complete results of all
    entries of [items.properties]. *)
Theorem validateField_never_throws p key :
  exists own,
    fieldDiagnostics p key = Normal own /\
    validateField p key = Normal (own ++ loop_output validateField (nested_entries p)) /\
    forall k member,
      In (k, member) (nested_entries p) ->
      exists l, validateField member k = Normal l /\
                incl l (loop_output validateField (nested_entries p)).
Proof.
  destruct (validateField_own_nested p key) as [own [Hown Hall]].
  exists own. split; [exact Hown |]. split; [exact Hall |].
  intros k member Hin.
  destruct (validateField_own_nested member k) as [own' [_ Hmember]].
  eexists. split; [exact Hmember |].
  intros d Hd. unfold loop_output. apply in_flat_map.
  exists (k, member). split; [exact Hin |].
  cbn [fst snd]. rewrite Hmember. exact Hd.
Qed.

(** C9: for a property with a [rules.content] object and no maximum,
    the generic warning and, for arrays, the error reporting the missing
    maximum carry attribute "rules.content.min", and nothing carries
    "rules.content.max"; that attribute is carried only by the error of
    a maximum below one. *)
Theorem missing_max_reported_as_min p key r c :
  rules p = Some r ->
  content r = Some c ->
  let max_warning :=
    field_diagnostic "Content rules must have a maximum length"
                     "rules.content.min" key warning in
  let max_error :=
    field_diagnostic "Content rules must have a maximum length"
                     "rules.content.min" key error in
  let max_below :=
    field_diagnostic "Content rules maximum length must be greater than 0"
                     "rules.content.max" key error in
  exists own,
    fieldDiagnostics p key = Normal own /\
    validateField p key = Normal (own ++ loop_output validateField (nested_entries p)) /\
    (content_max c = None \/ content_max c = Some 0 ->
     In max_warning own /\
     (type p = Some "array" -> In max_error own) /\
     forall d, In d own -> attribute d <> "rules.content.max") /\
    (forall d, In d own -> attribute d = "rules.content.max" ->
               d = max_below /\ type p = Some "array" /\
               exists n, content_max c = Some n /\ n <> 0 /\ n < 1).
Proof.
  intros Hrules Hcontent max_warning max_error max_below.
  destruct (validateField_own_nested p key) as [own [Hown Hall]].
  exists own. split; [exact Hown |]. split; [exact Hall |]. clear Hall.
  pose proof (max_attribute_diagnostics p key r c own Hrules Hcontent Hown) as Hmax.
  assert (Hsel : forall d, In d own -> attribute d = "rules.content.max" ->
                   In d (filter (has_attribute "rules.content.max") own)).
  { intros d Hd Ha. apply filter_In. split; [exact Hd |].
    unfold has_attribute. rewrite Ha. reflexivity. }
  split.
  - intros Hmissing. apply not_truthy_number in Hmissing. split; [| split].
    + destruct (content_diagnostics p key r c own Hrules Hcontent Hown)
        as [specific [Hcontent_own _]].
      apply (proj1 (filter_In touches_content _ own)).
      rewrite Hcontent_own, Hmissing. apply in_or_app. right. now left.
    + intros Htype.
      apply (proj1 (filter_In min_error _ own)).
      rewrite (min_error_array_fields p key r c own Htype Hrules Hcontent Hown), Hmissing.
      apply in_or_app. right. now left.
    + intros d Hd Ha. apply (Hsel d Hd) in Ha.
      rewrite Hmax, Hmissing in Ha.
      destruct (strict_eq_string (type p) "array"); destruct Ha.
  - intros d Hd Ha. apply (Hsel d Hd) in Ha. rewrite Hmax in Ha.
    destruct (strict_eq_string (type p) "array") eqn:Htype; [| destruct Ha].
    apply strict_eq_string_true in Htype.
    destruct (content_max c) as [n |] eqn:Hn; [| destruct Ha].
    change (truthy (Some n)) with (negb (Z.eqb n 0)) in Ha.
    destruct (Z.eqb_spec n 0) as [Hz | Hz]; [destruct Ha |].
    cbn [negb lt_one] in Ha.
    destruct (Z.ltb_spec n 1) as [Hlt | Hge]; [| destruct Ha].
    destruct Ha as [<- | []].
    split; [reflexivity |]. split; [exact Htype |].
    exists n. auto.
Qed.

(** C10: for a link, button or image field with a rules object and no
    default, exactly two diagnostics carry attribute "default": the
    generic warning and the error of the field's type. *)
Theorem default_reported_twice p key r t :
  type p = Some t ->
  t = "link" \/ t = "button" \/ t = "image" ->
  rules p = Some r ->
  default p = None ->
  exists diagnostics,
    validateField p key = Normal diagnostics /\
    filter (has_attribute "default") diagnostics =
    [field_diagnostic "Field default is required" "default" key warning;
     field_diagnostic
       (if String.eqb t "image" then "Default is required for image fields"
        else "Default is required for link fields")
       "default" key error].
Proof.
  intros Htype Ht Hrules Hdefault.
  destruct (validateField_own_nested p key) as [own [Hown Hall]].
  exists own. split.
  { rewrite Hall. unfold nested_entries. rewrite Htype.
    destruct Ht as [-> | [-> | ->]]; cbn; now rewrite app_nil_r. }
  clear Hall. run_own Hown. subst own. rewrite Htype, Hrules, Hdefault. cbv beta iota.
  destruct Ht as [-> | [-> | ->]].
  all: select_diagnostics.
  all: reflexivity.
Qed.

End Properties.

(** ** The claims on the sample inputs *)

(** C1 on the component [hero]. *)
Lemma valid_component_no_diagnostics_witness :
  valid_component sample_FieldTypes hero /\
  validateModule sample_FieldTypes hero = Normal [].
Proof.
  assert (Hvalid : valid_component sample_FieldTypes hero)
    by (apply valid_componentb_sound; reflexivity).
  split; [exact Hvalid |].
  exact (valid_component_no_diagnostics sample_FieldTypes hero Hvalid).
Defined.

(** C2 on [headline], whose [required] is [true]. *)
Lemma required_must_be_boolean_witness :
  rules headline = Some (text_rules (Some 80)) /\
  exists own,
    fieldDiagnostics sample_FieldTypes headline "headline" = Normal own /\
    filter (has_attribute "rules.required") own = [].
Proof.
  split; [reflexivity |].
  destruct (required_must_be_boolean sample_FieldTypes headline "headline"
              (text_rules (Some 80)) eq_refl) as [own [Hown [_ [Hboolean _]]]].
  exists own. split; [exact Hown |]. apply Hboolean. now left.
Defined.

(** C3 on the image field without default. *)
Lemma default_missing_warning_witness :
  default (banner None) = None /\
  exists own,
    fieldDiagnostics sample_FieldTypes (banner None) "banner" = Normal own /\
    filter (fun d => has_attribute "default" d && has_severity warning d) own =
    [field_diagnostic "Field default is required" "default" "banner" warning].
Proof.
  split; [reflexivity |].
  destruct (default_missing_warning sample_FieldTypes (banner None) "banner" eq_refl)
    as [own [Hown [_ [_ Hother]]]].
  exists own. split; [exact Hown |]. apply Hother. discriminate.
Defined.

(** C4 (amended) on the list whose item property has no type. *)
Lemma nested_type_diagnostic_witness :
  type untyped_list = Some "array" /\
  rules untyped_list = Some (list_rules (Some 1)) /\
  In ("label", untyped_label) untyped_entries /\
  type untyped_label = None /\
  exists own nested,
    validateField sample_FieldTypes untyped_list "links" = Normal (own ++ nested) /\
    In (field_diagnostic "Field type is required" "type" "label" error) nested.
Proof.
  split; [reflexivity |]. split; [reflexivity |].
  split; [now left |]. split; [reflexivity |].
  destruct (nested_type_diagnostic sample_FieldTypes untyped_list "links"
              (list_rules (Some 1))
              {| items_type := Some "link"; items_properties := Some untyped_entries |}
              untyped_entries "label" untyped_label
              eq_refl eq_refl eq_refl eq_refl (or_introl eq_refl) eq_refl)
    as [own [nested [Hall [_ [_ [_ Hin]]]]]].
  exists own, nested. split; [exact Hall | exact Hin].
Defined.

(** C5 on the list with minimum 0. *)
Lemma array_min_below_one_witness :
  type list_with_zero_min = Some "array" /\
  rules list_with_zero_min = Some (list_rules (Some 0)) /\
  0 < 1 /\
  exists diagnostics,
    validateField sample_FieldTypes list_with_zero_min "links" = Normal diagnostics /\
    In (field_diagnostic "Array fields must have a minimum content length"
                         "rules.content.min" "links" error)
       diagnostics.
Proof.
  split; [reflexivity |]. split; [reflexivity |]. split; [lia |].
  exact (array_min_below_one sample_FieldTypes list_with_zero_min "links"
           (list_rules (Some 0))
           {| content_min := Some 0; content_max := Some 5 |} 0
           eq_refl eq_refl eq_refl eq_refl ltac:(lia)).
Defined.

(** C6 on the text field without maximum. *)
Lemma content_bounds_warnings_witness :
  rules unbounded_text = Some (text_rules None) /\
  content (text_rules None) = Some {| content_min := Some 1; content_max := None |} /\
  exists own,
    fieldDiagnostics sample_FieldTypes unbounded_text "body" = Normal own /\
    In (field_diagnostic "Content rules must have a maximum length"
                         "rules.content.min" "body" warning) own /\
    ~ In (field_diagnostic "Content rules must have a minimum length"
                           "rules.content.min" "body" warning) own.
Proof.
  split; [reflexivity |]. split; [reflexivity |].
  destruct (content_bounds_warnings sample_FieldTypes unbounded_text "body"
              (text_rules None) {| content_min := Some 1; content_max := None |}
              eq_refl eq_refl)
    as [own [specific [Hown [_ [_ [_ [Hmin Hmax]]]]]]].
  exists own. split; [exact Hown |]. split.
  - apply Hmax. now left.
  - intros H. apply Hmin in H. destruct H as [[H | H] _]; discriminate H.
Defined.

(** C7 (amended) on the list without minimum. *)
Lemma array_min_messages_witness :
  type list_without_min = Some "array" /\
  rules list_without_min = Some (list_rules None) /\
  exists own,
    fieldDiagnostics sample_FieldTypes list_without_min "links" = Normal own /\
    In (field_diagnostic "Array fields must have a minimum content length"
                         "rules.content.min" "links" error) own /\
    ~ In (field_diagnostic "Array fields must have a maximum content length"
                           "rules.content.min" "links" error) own.
Proof.
  split; [reflexivity |]. split; [reflexivity |].
  destruct (array_min_messages sample_FieldTypes list_without_min "links"
              (list_rules None)
              {| content_min := None; content_max := Some 5 |}
              eq_refl eq_refl eq_refl)
    as [own [Hown [_ [Habsent _]]]].
  exists own. split; [exact Hown |]. apply Habsent. now left.
Defined.

(** C9 on the text field without maximum. *)
Lemma missing_max_reported_as_min_witness :
  rules unbounded_text = Some (text_rules None) /\
  content (text_rules None) = Some {| content_min := Some 1; content_max := None |} /\
  exists own,
    fieldDiagnostics sample_FieldTypes unbounded_text "body" = Normal own /\
    In (field_diagnostic "Content rules must have a maximum length"
                         "rules.content.min" "body" warning) own /\
    forall d, In d own -> attribute d <> "rules.content.max".
Proof.
  split; [reflexivity |]. split; [reflexivity |].
  destruct (missing_max_reported_as_min sample_FieldTypes unbounded_text "body"
              (text_rules None) {| content_min := Some 1; content_max := None |}
              eq_refl eq_refl)
    as [own [Hown [_ [Hmissing _]]]].
  exists own. split; [exact Hown |].
  destruct (Hmissing (or_introl eq_refl)) as [Hwarning [_ Hnone]].
  split; [exact Hwarning | exact Hnone].
Defined.

(** C10 on the image field without default. *)
Lemma default_reported_twice_witness :
  type (banner None) = Some "image" /\
  rules (banner None) = Some image_rules /\
  default (banner None) = None /\
  exists diagnostics,
    validateField sample_FieldTypes (banner None) "banner" = Normal diagnostics /\
    filter (has_attribute "default") diagnostics =
    [field_diagnostic "Field default is required" "default" "banner" warning;
     field_diagnostic "Default is required for image fields" "default" "banner" error].
Proof.
  split; [reflexivity |]. split; [reflexivity |]. split; [reflexivity |].
  exact (default_reported_twice sample_FieldTypes (banner None) "banner" image_rules
           "image" eq_refl (or_intror (or_intror eq_refl)) eq_refl eq_refl).
Defined.

(** C8 on the list whose item property has no type. *)
Lemma validateField_never_throws_witness :
  In ("label", untyped_label) (nested_entries untyped_list) /\
  exists own l,
    validateField sample_FieldTypes untyped_label "label" = Normal l /\
    validateField sample_FieldTypes untyped_list "links" =
      Normal (own ++ loop_output (validateField sample_FieldTypes)
                                 (nested_entries untyped_list)) /\
    incl l (loop_output (validateField sample_FieldTypes) (nested_entries untyped_list)).
Proof.
  split; [now left |].
  destruct (validateField_never_throws sample_FieldTypes untyped_list "links")
    as [own [_ [Hall Hmembers]]].
  destruct (Hmembers "label" untyped_label (or_introl eq_refl)) as [l [Hl Hincl]].
  exists own, l. split; [exact Hl |]. split; [exact Hall | exact Hincl].
Defined.

(** ** Where the claims fail as stated *)

(** C4 as stated: an array field without a rules object gets the
    warning about the missing rules only; its [items.properties] are
    not visited, and the nested field without a type is not reported. *)
Lemma nested_type_needs_rules :
  type ruleless_list = Some "array" /\
  items ruleless_list =
    Some {| items_type := Some "link"; items_properties := Some untyped_entries |} /\
  In ("label", untyped_label) untyped_entries /\
  type untyped_label = None /\
  validateField sample_FieldTypes ruleless_list "links" =
    Normal [field_diagnostic "Field rules are required" "rules" "links" warning] /\
  ~ exists d, In d (returned (validateField sample_FieldTypes ruleless_list "links")) /\
              attribute d = "type" /\ property d = Some "label".
Proof.
  split; [reflexivity |]. split; [reflexivity |]. split; [now left |].
  split; [reflexivity |]. split; [reflexivity |].
  intros [d [[<- | []] [Hattribute _]]]. discriminate Hattribute.
Qed.

(** C7 as stated: the message for an absent minimum and the message for
    a minimum below one differ. *)
Lemma array_min_messages_differ :
  map message
      (filter min_error
         (returned (validateField sample_FieldTypes list_without_min "links"))) =
    ["Array fields must have a minimum content length"] /\
  map message
      (filter min_error
         (returned (validateField sample_FieldTypes list_with_negative_min "links"))) =
    ["Array fields must have a maximum content length"] /\
  "Array fields must have a minimum content length"
  <> "Array fields must have a maximum content length".
Proof.
  split; [reflexivity |]. split; [reflexivity | discriminate].
Qed.

(** ** The earlier iteration *)

(** On an array field with [required: false], no default and a content
    object without a minimum, the earlier iteration reports the default,
    [rules.required] and the minimum, where the validator of part_000
    reports none of the three. *)
Lemma earlier_iteration_differs :
  map (fun d => (attribute d, severity d))
      (returned (Earlier.validateField sample_FieldTypes list_without_min "links")) =
    [("default", Some warning);
     ("rules.required", Some error);
     ("rules.content.min", Some warning);
     ("rules.content.min", Some error)] /\
  map (fun d => (attribute d, severity d))
      (returned (validateField sample_FieldTypes list_without_min "links")) =
    [("rules.content.min", Some error)].
Proof.
  split; reflexivity.
Qed.

(** * Further properties of the code *)

(** ** The diagnostics of a field *)

Lemma existsb_eqb_In (a : string) (l : list string) :
  existsb (String.eqb a) l = true -> In a l.
Proof.
  intros H. apply existsb_exists in H. destruct H as [b [Hin Heq]].
  apply String.eqb_eq in Heq. now subst b.
Qed.

(** As [forall_diagnostics], with the tactic that settles one
    diagnostic given. *)
Ltac forall_diagnostics_by tac :=
  lazymatch goal with
  | |- Forall _ (_ ++ _) => apply Forall_app; split; forall_diagnostics_by tac
  | |- Forall _ (if ?c then _ else _) =>
      let E := fresh "Hguard" in destruct c eqn:E; forall_diagnostics_by tac
  | |- Forall _ (match ?o with Some _ => _ | None => _ end) =>
      let E := fresh "Hmember" in destruct o eqn:E; forall_diagnostics_by tac
  | |- Forall _ [] => constructor
  | |- Forall _ (_ :: _) => constructor; [tac | forall_diagnostics_by tac]
  end.

(** [x' = map f x] for two lists built by the same guards. *)
Ltac map_diagnostics :=
  lazymatch goal with
  | |- _ = map _ (_ ++ _) => rewrite map_app; f_equal; map_diagnostics
  | |- _ = map _ (if ?c then _ else _) => destruct c; map_diagnostics
  | |- _ = map _ (match ?o with Some _ => _ | None => _ end) =>
      destruct o; map_diagnostics
  | |- _ => reflexivity
  end.

Section FieldDiagnostics.

Variable FieldTypes : list string.

Local Abbreviation validateField := (validateField FieldTypes).
Local Abbreviation fieldDiagnostics := (fieldDiagnostics FieldTypes).
Local Abbreviation validateModule := (validateModule FieldTypes).

Lemma own_field_shaped p key own :
  fieldDiagnostics p key = Normal own -> Forall field_shaped own.
Proof.
  intros Hown. run_own Hown. subst own.
  forall_diagnostics_by
    ltac:(split; [apply existsb_eqb_In; reflexivity
                 | split; [discriminate
                          | first [ left; reflexivity
                                  | right; split;
                                    [reflexivity | apply existsb_eqb_In; reflexivity] ] ] ]).
Qed.

Lemma returned_field_shaped p :
  forall key, Forall field_shaped (returned (validateField p key)).
Proof.
  induction p as [p IH] using PropertyDefinition_tree_ind. intros key.
  destruct (validateField_own_nested FieldTypes p key) as [own [Hown Hall]].
  rewrite Hall. cbn [returned]. apply Forall_app. split.
  - exact (own_field_shaped p key own Hown).
  - unfold loop_output. apply Forall_flat_map, Forall_forall.
    intros [k member] Hin. cbn [fst snd].
    unfold nested_entries in Hin.
    destruct (strict_eq_string (type p) "array" && truthy (rules p)); [| destruct Hin].
    destruct (items p) as [it |] eqn:Hit; [| destruct Hin].
    destruct (items_properties it) as [entries |] eqn:He; [| destruct Hin].
    exact (IH it entries eq_refl He k member Hin k).
Qed.

(** X1: [validateField] returns, and every diagnostic of its result, those
    of the nested fields included, has one of the attributes the
    validator writes, carries a property, and is an error or, under the
    attributes description, default, rules and rules.content.min only,
    a warning. *)
Theorem validateField_diagnostics_shaped p key :
  exists l, validateField p key = Normal l /\ Forall field_shaped l.
Proof.
  destruct (validateField_own_nested FieldTypes p key) as [own [_ Hall]].
  eexists. split; [exact Hall |].
  pose proof (returned_field_shaped p key) as H. now rewrite Hall in H.
Qed.

(** X2: on a property without a rules object the validator makes the
    generic checks on type, description, name and default, ends with
    the warning that rules are required, and does nothing else: no
    check of lines 71-300 is made and no item is visited, whatever the
    type. *)
Theorem validateField_without_rules p key :
  rules p = None ->
  exists generic,
    validateField p key =
      Normal (generic ++ [field_diagnostic "Field rules are required" "rules" key warning]) /\
    Forall (fun d => In (attribute d) ["type"; "description"; "name"; "default"]) generic.
Proof.
  intros Hrules.
  destruct (validateField_own_nested FieldTypes p key) as [own [Hown Hall]].
  run_own Hown. rewrite Hrules in Hown.
  eexists. split.
  - rewrite Hall. unfold nested_entries. rewrite Hrules, andb_false_r, app_nil_r.
    rewrite Hown, !app_assoc. reflexivity.
  - forall_diagnostics_by ltac:(apply existsb_eqb_In; reflexivity).
Qed.

(** X3: the key is only a label.  Validated under another key, a field
    gets the same own diagnostics with the property replaced, and the
    very same diagnostics for its nested fields, which carry the keys
    of [items.properties]. *)
Theorem validateField_key_is_a_label p key key' :
  exists own nested,
    validateField p key = Normal (own ++ nested) /\
    validateField p key' = Normal (map (with_property key') own ++ nested).
Proof.
  destruct (validateField_own_nested FieldTypes p key) as [own [Hown Hall]].
  destruct (validateField_own_nested FieldTypes p key') as [own' [Hown' Hall']].
  exists own, (loop_output validateField (nested_entries p)).
  split; [exact Hall |]. rewrite Hall'. do 2 f_equal.
  run_own Hown. run_own Hown'. subst own own'.
  map_diagnostics.
Qed.

End FieldDiagnostics.

Lemma indexOf_not_found l t : ~ In t l -> indexOf l (Some t) = -1.
Proof.
  induction l as [| s rest IH]; intros Hnot; [reflexivity |].
  cbn [indexOf strict_eq_string].
  destruct (String.eqb_spec t s) as [-> | Hneq].
  - exfalso. apply Hnot. now left.
  - rewrite IH; [reflexivity |]. intros Hin. apply Hnot. now right.
Qed.

Lemma not_truthy_string (o : option string) :
  truthy o = false <-> o = None \/ o = Some EmptyString.
Proof.
  destruct o as [s |]; [| cbn; intuition].
  change (truthy (Some s)) with (negb (String.eqb s EmptyString)).
  rewrite negb_false_iff, String.eqb_eq.
  split; [intros ->; now right | intros [H | H]; [discriminate | now injection H]].
Qed.

Section TypeAndContent.

Variable FieldTypes : list string.

Local Abbreviation validateField := (validateField FieldTypes).
Local Abbreviation fieldDiagnostics := (fieldDiagnostics FieldTypes).
Local Abbreviation valid_type := (valid_type FieldTypes).

(** X4: about the type, a field receives for itself the one error "Field
    type is required" when the type is missing or the empty string,
    the one error "Field type t is invalid" when it is a string [t]
    outside [FieldTypes], and nothing when the type is of the
    enumeration. *)
Theorem type_diagnostic p key :
  exists own,
    fieldDiagnostics p key = Normal own /\
    validateField p key = Normal (own ++ loop_output validateField (nested_entries p)) /\
    (type p = None \/ type p = Some EmptyString ->
     filter (has_attribute "type") own =
     [field_diagnostic "Field type is required" "type" key error]) /\
    (forall t, type p = Some t -> t <> EmptyString -> ~ In t FieldTypes ->
     filter (has_attribute "type") own =
     [field_diagnostic ("Field type " ++ t ++ " is invalid") "type" key error]) /\
    (valid_type (type p) -> filter (has_attribute "type") own = []).
Proof.
  destruct (validateField_own_nested FieldTypes p key) as [own [Hown Hall]].
  exists own. split; [exact Hown |]. split; [exact Hall |]. clear Hall.
  run_own Hown.
  assert (Hsel : filter (has_attribute "type") own =
                 if negb (truthy (type p)) then
                   [field_diagnostic "Field type is required" "type" key error]
                 else if Z.eqb (indexOf FieldTypes (type p)) (-1) then
                   [field_diagnostic ("Field type " ++ template (type p) ++ " is invalid")
                                     "type" key error]
                 else []).
  { rewrite Hown. select_diagnostics. reflexivity. }
  rewrite Hsel. clear Hsel Hown. split; [| split].
  - intros H. apply not_truthy_string in H. now rewrite H.
  - intros t Ht Hne Hnot. rewrite Ht.
    change (truthy (Some t)) with (negb (String.eqb t EmptyString)).
    apply String.eqb_neq in Hne. rewrite Hne. cbn [negb].
    now rewrite (indexOf_not_found _ _ Hnot).
  - intros Hvalid. destruct (valid_type_checks FieldTypes _ Hvalid) as [-> ->].
    reflexivity.
Qed.

(** X5: with a rules object, the attribute "rules.content" is written
    when [rules.content] is missing and the type is text or array, as
    one error whose message names the type; it is never written when
    the content rules are there, nor for another type. *)
Theorem content_required_for_text_and_array p key r :
  rules p = Some r ->
  exists own,
    fieldDiagnostics p key = Normal own /\
    validateField p key = Normal (own ++ loop_output validateField (nested_entries p)) /\
    (content r <> None -> filter (has_attribute "rules.content") own = []) /\
    (content r = None ->
     (type p = Some "text" ->
      filter (has_attribute "rules.content") own =
      [field_diagnostic "Content rules are required for text fields"
                        "rules.content" key error]) /\
     (type p = Some "array" ->
      filter (has_attribute "rules.content") own =
      [field_diagnostic "Content rules are required for array fields"
                        "rules.content" key error]) /\
     (type p <> Some "text" -> type p <> Some "array" ->
      filter (has_attribute "rules.content") own = [])).
Proof.
  intros Hrules.
  destruct (validateField_own_nested FieldTypes p key) as [own [Hown Hall]].
  exists own. split; [exact Hown |]. split; [exact Hall |]. clear Hall.
  run_own Hown. rewrite Hrules in Hown. cbv beta iota in Hown.
  destruct (content r) as [c |] eqn:Hcontent.
  - split; [| intros H; discriminate H]. intros _.
    cbn [truthy truthy_option truthy_ContentRules negb] in Hown.
    rewrite Hown. select_diagnostics. reflexivity.
  - split; [intros H; now contradiction H |]. intros _.
    cbn [truthy truthy_option negb] in Hown.
    rewrite Hown. clear Hown. split; [| split].
    + intros ->. select_diagnostics. reflexivity.
    + intros ->. select_diagnostics. reflexivity.
    + intros Htext Harray.
      destruct (strict_eq_string (type p) "text") eqn:E1;
        [apply strict_eq_string_true in E1; contradiction |].
      destruct (strict_eq_string (type p) "array") eqn:E2;
        [apply strict_eq_string_true in E2; contradiction |].
      select_diagnostics. reflexivity.
Qed.

End TypeAndContent.

Lemma In_existsb_eqb (a : string) (l : list string) :
  In a l -> existsb (String.eqb a) l = true.
Proof.
  intros H. apply existsb_exists. exists a. split; [exact H | apply String.eqb_refl].
Qed.

Lemma truthy_number_given (o : option Z) : truthy o = true -> given_number o.
Proof.
  destruct o as [n |]; [| discriminate].
  change (truthy (Some n)) with (negb (Z.eqb n 0)).
  rewrite negb_true_iff, Z.eqb_neq. intros Hn. now exists n.
Qed.

(** Settles one conjunct of [type_of_branch] for a diagnostic whose
    attribute is known, from the guards passed on the way to it. *)
Ltac branch_of_guard :=
  first
    [ apply strict_eq_string_true; assumption
    | left; apply strict_eq_string_true; assumption
    | right; apply strict_eq_string_true; assumption ].

Ltac type_of_branch_by_guards :=
  unfold type_of_branch; cbn [attribute field_diagnostic];
  repeat split;
  intros Hattribute;
  first [ discriminate Hattribute
        | apply In_existsb_eqb in Hattribute; discriminate Hattribute
        | branch_of_guard ].

Section Branches.

Variable FieldTypes : list string.

Local Abbreviation validateField := (validateField FieldTypes).
Local Abbreviation fieldDiagnostics := (fieldDiagnostics FieldTypes).

(** X6: the dimension checks of an image field stop at the first missing
    level: without [rules.dimensions] the one diagnostic is
    "Dimensions are required", without [dimensions.min] it is "Minimum
    is required", and with a minimum size the width and the height are
    tested each for itself, zero counting as missing.  No diagnostic
    about dimensions is written exactly when the minimum gives both a
    width and a height other than zero; a field of another type never
    receives one. *)
Theorem image_dimension_diagnostics p key r :
  rules p = Some r ->
  exists own,
    fieldDiagnostics p key = Normal own /\
    validateField p key = Normal (own ++ loop_output validateField (nested_entries p)) /\
    (type p <> Some "image" -> filter touches_dimensions own = []) /\
    (type p = Some "image" ->
     (dimensions r = None ->
      filter touches_dimensions own =
      [field_diagnostic "Dimensions are required for image fields"
                        "rules.dimensions" key error]) /\
     (forall d, dimensions r = Some d -> dimensions_min d = None ->
      filter touches_dimensions own =
      [field_diagnostic "Minimum is required for image fields"
                        "rules.dimensions.min" key error]) /\
     (forall d size, dimensions r = Some d -> dimensions_min d = Some size ->
      filter touches_dimensions own =
      (if negb (truthy (width size)) then
         [field_diagnostic "Minimum width is required for image fields"
                           "rules.dimensions.width" key error]
       else []) ++
      (if negb (truthy (height size)) then
         [field_diagnostic "Minimum height is required for image fields"
                           "rules.dimensions.height" key error]
       else [])) /\
     (filter touches_dimensions own = [] <->
      exists d size, dimensions r = Some d /\ dimensions_min d = Some size /\
                     given_number (width size) /\ given_number (height size))).
Proof.
  intros Hrules.
  destruct (validateField_own_nested FieldTypes p key) as [own [Hown Hall]].
  exists own. split; [exact Hown |]. split; [exact Hall |]. clear Hall.
  run_own Hown. rewrite Hrules in Hown. cbv beta iota in Hown.
  assert (Hsel : filter touches_dimensions own =
                 if strict_eq_string (type p) "image" then
                   match dimensions r with
                   | None => [field_diagnostic "Dimensions are required for image fields"
                                               "rules.dimensions" key error]
                   | Some d =>
                       match dimensions_min d with
                       | None => [field_diagnostic "Minimum is required for image fields"
                                                   "rules.dimensions.min" key error]
                       | Some size =>
                           (if negb (truthy (width size)) then
                              [field_diagnostic "Minimum width is required for image fields"
                                                "rules.dimensions.width" key error]
                            else []) ++
                           (if negb (truthy (height size)) then
                              [field_diagnostic "Minimum height is required for image fields"
                                                "rules.dimensions.height" key error]
                            else [])
                       end
                   end
                 else []).
  { rewrite Hown. clear Hown. unfold touches_dimensions.
    destruct (strict_eq_string (type p) "image").
    - destruct (dimensions r) as [d |]; [destruct (dimensions_min d) as [size |] |];
        select_diagnostics; reflexivity.
    - select_diagnostics. reflexivity. }
  rewrite Hsel. clear Hsel Hown. split.
  - intros Hnot. destruct (strict_eq_string (type p) "image") eqn:E; [| reflexivity].
    apply strict_eq_string_true in E. contradiction.
  - intros ->. cbn [strict_eq_string]. rewrite String.eqb_refl.
    split; [intros ->; reflexivity |].
    split; [intros d -> ->; reflexivity |].
    split; [intros d size -> ->; reflexivity |].
    split.
    + destruct (dimensions r) as [d |]; [| discriminate].
      destruct (dimensions_min d) as [size |] eqn:Hmin; [| discriminate].
      intros Hnone. exists d, size. split; [reflexivity |]. split; [exact Hmin |].
      destruct (truthy (width size)) eqn:Hw; [| discriminate].
      destruct (truthy (height size)) eqn:Hh; [| discriminate].
      split; now apply truthy_number_given.
    + intros [d [size [-> [-> [Hw Hh]]]]].
      now rewrite (truthy_given_number _ Hw), (truthy_given_number _ Hh).
Qed.

Lemma own_type_of_branch p key own :
  fieldDiagnostics p key = Normal own -> Forall (type_of_branch (type p)) own.
Proof.
  intros Hown. run_own Hown. subst own.
  forall_diagnostics_by type_of_branch_by_guards.
Qed.

(** X7: the type-specific diagnostics belong to their type: an attribute
    about items or "rules.content.max" is written for array fields
    only, one about dimensions or the src and alt of the default for
    image fields only, "link.default.text" for link fields,
    "link.default.label" for button fields, "image.default.url" for
    link or button fields, "rules.content" for text or array fields.
    A field that is not an array has no nested diagnostics. *)
Theorem branch_diagnostics_tell_the_type p key :
  exists own,
    fieldDiagnostics p key = Normal own /\
    validateField p key = Normal (own ++ loop_output validateField (nested_entries p)) /\
    Forall (type_of_branch (type p)) own /\
    (type p <> Some "array" -> validateField p key = Normal own).
Proof.
  destruct (validateField_own_nested FieldTypes p key) as [own [Hown Hall]].
  exists own. split; [exact Hown |]. split; [exact Hall |].
  split; [exact (own_type_of_branch p key own Hown) |].
  intros Hnot. rewrite Hall. unfold nested_entries.
  destruct (strict_eq_string (type p) "array") eqn:E.
  - apply strict_eq_string_true in E. contradiction.
  - cbn [andb]. now rewrite app_nil_r.
Qed.

End Branches.

(** ** The shape of a default *)

Lemma index_name_not_default_key i k :
  In k default_keys -> String.eqb (index_name i) k = false.
Proof.
  intros Hk. unfold index_name.
  destruct (Nat.to_uint i); cbn [NilEmpty.string_of_uint];
    repeat (destruct Hk as [<- | Hk]; [reflexivity |]); destruct Hk.
Qed.

Lemma array_has_no_default_key k elements :
  In k default_keys -> has_key k (Some (VArray elements)) = false.
Proof.
  intros Hk. cbn [has_key has_property]. apply orb_false_iff. split.
  - apply not_true_is_false. intros H. apply existsb_exists in H.
    destruct H as [i [_ Hi]]. now rewrite (index_name_not_default_key i k Hk) in Hi.
  - repeat (destruct Hk as [<- | Hk]; [reflexivity |]); destruct Hk.
Qed.

Section DefaultShape.

Variable FieldTypes : list string.

Local Abbreviation validateField := (validateField FieldTypes).
Local Abbreviation fieldDiagnostics := (fieldDiagnostics FieldTypes).

(** X8: an array passes for an object-shaped default ([typeof] is
    "object"), so no "Default is required" is written, but it has none
    of the keys: a link, button or image field whose default is an
    array receives both key errors of its type. *)
Theorem array_default_has_no_keys p key r elements :
  rules p = Some r ->
  default p = Some (VArray elements) ->
  exists own,
    fieldDiagnostics p key = Normal own /\
    validateField p key = Normal (own ++ loop_output validateField (nested_entries p)) /\
    filter (has_attribute "default") own = [] /\
    (type p = Some "link" ->
     filter touches_default_keys own =
     [field_diagnostic "Default url is required for link fields"
                       "image.default.url" key error;
      field_diagnostic "Default text is required for link fields"
                       "link.default.text" key error]) /\
    (type p = Some "button" ->
     filter touches_default_keys own =
     [field_diagnostic "Default url is required for image fields"
                       "image.default.url" key error;
      field_diagnostic "Default label is required for image fields"
                       "link.default.label" key error]) /\
    (type p = Some "image" ->
     filter touches_default_keys own =
     [field_diagnostic "Default src is required for image fields"
                       "image.default.src" key error;
      field_diagnostic "Default alt is required for image fields"
                       "image.default.alt" key error]).
Proof.
  intros Hrules Hdefault.
  destruct (validateField_own_nested FieldTypes p key) as [own [Hown Hall]].
  exists own. split; [exact Hown |]. split; [exact Hall |]. clear Hall.
  run_own Hown. rewrite Hrules, Hdefault in Hown. cbv beta iota in Hown.
  rewrite !array_has_no_default_key in Hown by (apply existsb_eqb_In; reflexivity).
  cbn [truthy truthy_option truthy_value typeof negb orb is_undefined andb
       String.eqb Ascii.eqb Bool.eqb] in Hown.
  rewrite Hown. clear Hown. unfold touches_default_keys.
  split; [select_diagnostics; reflexivity |].
  split; [| split]; intros ->; select_diagnostics; reflexivity.
Qed.

(** X9: a default that is there but is neither an object nor an array
    (null, a boolean, a number, a string) is reported once under
    "default", as an error: "Default is required for link fields" for
    link and for button fields, "Default is required for image fields"
    for image fields; no key is looked for, and fields of other types
    get nothing about the default. *)
Theorem primitive_default_rejected p key r v :
  rules p = Some r ->
  default p = Some v ->
  (forall members, v <> VObject members) ->
  (forall elements, v <> VArray elements) ->
  exists own,
    fieldDiagnostics p key = Normal own /\
    validateField p key = Normal (own ++ loop_output validateField (nested_entries p)) /\
    filter touches_default_keys own = [] /\
    (type p = Some "link" \/ type p = Some "button" ->
     filter (has_attribute "default") own =
     [field_diagnostic "Default is required for link fields" "default" key error]) /\
    (type p = Some "image" ->
     filter (has_attribute "default") own =
     [field_diagnostic "Default is required for image fields" "default" key error]) /\
    (type p <> Some "link" -> type p <> Some "button" -> type p <> Some "image" ->
     filter (has_attribute "default") own = []).
Proof.
  intros Hrules Hdefault Hobject Harray.
  destruct (validateField_own_nested FieldTypes p key) as [own [Hown Hall]].
  exists own. split; [exact Hown |]. split; [exact Hall |]. clear Hall.
  run_own Hown. rewrite Hrules, Hdefault in Hown. cbv beta iota in Hown.
  assert (Hshape : negb (truthy (Some v)) || negb (String.eqb (typeof (Some v)) "object")
                   = true).
  { destruct v as [| b | n | s | elements | members];
      try (cbn; now rewrite ?orb_true_r).
    - now contradiction (Harray elements).
    - now contradiction (Hobject members). }
  rewrite Hshape in Hown. cbn [is_undefined andb] in Hown.
  rewrite Hown. clear Hown Hshape. unfold touches_default_keys.
  split; [select_diagnostics; reflexivity |].
  split; [| split].
  - intros [-> | ->]; select_diagnostics; reflexivity.
  - intros ->. select_diagnostics. reflexivity.
  - intros Hlink Hbutton Himage.
    destruct (strict_eq_string (type p) "link") eqn:E1;
      [apply strict_eq_string_true in E1; contradiction |].
    destruct (strict_eq_string (type p) "button") eqn:E2;
      [apply strict_eq_string_true in E2; contradiction |].
    destruct (strict_eq_string (type p) "image") eqn:E3;
      [apply strict_eq_string_true in E3; contradiction |].
    select_diagnostics. reflexivity.
Qed.

End DefaultShape.

(** ** The items of an array field *)

Section Items.

Variable FieldTypes : list string.

Local Abbreviation validateField := (validateField FieldTypes).
Local Abbreviation fieldDiagnostics := (fieldDiagnostics FieldTypes).

(** X10: for an array field with rules: without [items] the one diagnostic
    about items is "Items are required" and nothing is visited; with
    items that have no [properties] the error "Properties are
    required" is written and nothing is visited; with a mapping of
    properties its entries are validated one after the other and
    neither attribute is written. *)
Theorem array_items_diagnostics p key r :
  type p = Some "array" ->
  rules p = Some r ->
  exists own,
    fieldDiagnostics p key = Normal own /\
    validateField p key = Normal (own ++ loop_output validateField (nested_entries p)) /\
    (items p = None ->
     validateField p key = Normal own /\
     filter touches_items own =
     [field_diagnostic "Items are required for array fields" "items" key error]) /\
    (forall it, items p = Some it -> items_properties it = None ->
     validateField p key = Normal own /\
     filter (has_attribute "items.properties") own =
     [field_diagnostic "Properties are required for array fields"
                       "items.properties" key error]) /\
    (forall it entries, items p = Some it -> items_properties it = Some entries ->
     validateField p key = Normal (own ++ loop_output validateField entries) /\
     filter (has_attribute "items.properties") own = [] /\
     filter (has_attribute "items") own = []).
Proof.
  intros Htype Hrules.
  destruct (validateField_own_nested FieldTypes p key) as [own [Hown Hall]].
  exists own. split; [exact Hown |]. split; [exact Hall |].
  unfold nested_entries in Hall. rewrite Htype, Hrules in Hall.
  cbn [strict_eq_string] in Hall. rewrite String.eqb_refl in Hall.
  cbn [truthy truthy_option truthy_Rules andb] in Hall.
  run_own Hown. rewrite Htype, Hrules in Hown. cbv beta iota in Hown.
  cbn [strict_eq_string] in Hown. rewrite String.eqb_refl in Hown.
  split; [| split].
  - intros Hitems. rewrite Hitems in Hall, Hown. rewrite app_nil_r in Hall.
    split; [exact Hall |]. rewrite Hown. unfold touches_items.
    select_diagnostics. reflexivity.
  - intros it Hitems Hproperties. rewrite Hitems in Hall, Hown.
    rewrite Hproperties in Hall, Hown. rewrite app_nil_r in Hall.
    split; [exact Hall |]. rewrite Hown. cbv beta iota.
    select_diagnostics. reflexivity.
  - intros it entries Hitems Hproperties. rewrite Hitems in Hall, Hown.
    rewrite Hproperties in Hall, Hown.
    split; [exact Hall |]. rewrite Hown. cbv beta iota.
    split; select_diagnostics; reflexivity.
Qed.

End Items.

(** ** Accepted fields and components *)

Lemma truthy_string_given (o : option string) : truthy o = true -> given_string o.
Proof.
  destruct o as [s |]; [| discriminate].
  change (truthy (Some s)) with (negb (String.eqb s EmptyString)).
  rewrite negb_true_iff, String.eqb_neq. intros Hs. now exists s.
Qed.

Lemma valid_type_of_checks FieldTypes o :
  truthy o = true -> Z.eqb (indexOf FieldTypes o) (-1) = false ->
  valid_type FieldTypes o.
Proof.
  intros Htruthy Hindex. destruct (truthy_string_given o Htruthy) as [t [-> Ht]].
  exists t. split; [reflexivity |]. split; [exact Ht |].
  destruct (in_dec string_dec t FieldTypes) as [Hin | Hnot]; [exact Hin |].
  rewrite (indexOf_not_found _ _ Hnot) in Hindex. discriminate Hindex.
Qed.

Lemma at_least_one_of_checks o :
  truthy o = true -> lt_one o = false -> at_least_one o.
Proof.
  intros Htruthy Hlt. destruct o as [n |]; [| discriminate].
  exists n. split; [reflexivity |]. cbn [lt_one] in Hlt. now apply Z.ltb_ge.
Qed.

Lemma object_with_keys_of_checks k1 k2 d :
  In k1 default_keys ->
  negb (truthy d) || negb (String.eqb (typeof d) "object") = false ->
  has_key k1 d = true -> has_key k2 d = true ->
  object_with_keys [k1; k2] d.
Proof.
  intros Hk Hshape H1 H2.
  destruct d as [[| b | n | s | elements | members] |];
    cbn in Hshape; rewrite ?orb_true_r in Hshape; try discriminate Hshape.
  - now rewrite (array_has_no_default_key k1 elements Hk) in H1.
  - exists members. split; [reflexivity |].
    assert (Hkey : forall k, has_key k (Some (VObject members)) = true ->
                             In k (map fst members)).
    { intros k H. cbn [has_key has_property] in H. apply existsb_exists in H.
      destruct H as [m [Hin Heq]]. apply String.eqb_eq in Heq. subst k.
      now apply in_map. }
    intros k [<- | [<- | []]]; now apply Hkey.
Qed.

(** The cases of the guards in front of diagnostics none of which was
    written. *)
Ltac nil_guards :=
  repeat match goal with
  | H : _ ++ _ = [] |- _ => apply app_eq_nil in H; destruct H
  | H : [] = [] |- _ => clear H
  | H : _ :: _ = [] |- _ => discriminate H
  | H : (if ?c then _ else _) = [] |- _ => destruct c eqn:?
  | H : match ?o with Some _ => _ | None => _ end = [] |- _ => destruct o eqn:?
  end.

Section AcceptedFields.

Variable FieldTypes : list string.

Local Abbreviation validateField := (validateField FieldTypes).
Local Abbreviation fieldDiagnostics := (fieldDiagnostics FieldTypes).
Local Abbreviation validateModule := (validateModule FieldTypes).
Local Abbreviation accepted_field := (accepted_field FieldTypes).
Local Abbreviation accepted_component := (accepted_component FieldTypes).

Lemma accepted_field_own p key own :
  accepted_field p ->
  fieldDiagnostics p key = Normal own ->
  own = [].
Proof.
  intros Haccepted Hown. run_own Hown. subst own.
  destruct Haccepted as [p r Htype Hname Hdescription Hrules Hrequired
                           Hdefault Hlink Hbutton Himage
                           Hcontent Htext Harray Hdimensions Hitems].
  destruct (valid_type_checks FieldTypes _ Htype) as [-> ->].
  rewrite (truthy_given_string _ Hname), (truthy_given_string _ Hdescription).
  rewrite Hrules. cbv beta iota. cbn [negb app].
  repeat apply app_both_nil.
  - destruct (strict_eq_string (type p) "array") eqn:E.
    + cbn [negb]. now rewrite andb_false_r.
    + apply strict_eq_string_false in E. specialize (Hdefault E).
      destruct (default p); [reflexivity | contradiction].
  - destruct Hrequired as [-> | ->]; reflexivity.
  - destruct (content r) as [c |] eqn:Hc; [| reflexivity].
    destruct (Hcontent c eq_refl) as [Hmax Hmin].
    rewrite (truthy_given_number _ Hmax). cbn [negb app].
    destruct (strict_eq_bool (required r) true) eqn:E; [| now rewrite andb_false_r].
    apply strict_eq_bool_true in E.
    now rewrite (truthy_given_number _ (Hmin E)).
  - destruct (strict_eq_string (type p) "text") eqn:E; [| reflexivity].
    apply strict_eq_string_true in E. specialize (Htext E).
    destruct (content r); [reflexivity | contradiction].
  - destruct (strict_eq_string (type p) "array") eqn:E; [| reflexivity].
    apply strict_eq_string_true in E.
    destruct (Harray E) as [c [-> [Hmin Hmax]]].
    destruct (Hitems E) as [it [entries [-> [Hty [-> _]]]]].
    destruct (at_least_one_checks _ Hmin) as [-> ->].
    destruct (at_least_one_checks _ Hmax) as [-> ->].
    destruct (valid_type_checks FieldTypes _ Hty) as [-> ->].
    reflexivity.
  - destruct (strict_eq_string (type p) "link") eqn:E; [| reflexivity].
    apply strict_eq_string_true in E.
    destruct (object_with_keys_checks _ _ (Hlink E)) as [-> Hkeys].
    rewrite !Hkeys by (cbn [In]; tauto). reflexivity.
  - destruct (strict_eq_string (type p) "button") eqn:E; [| reflexivity].
    apply strict_eq_string_true in E.
    destruct (object_with_keys_checks _ _ (Hbutton E)) as [-> Hkeys].
    rewrite !Hkeys by (cbn [In]; tauto). reflexivity.
  - destruct (strict_eq_string (type p) "image") eqn:E; [| reflexivity].
    apply strict_eq_string_true in E.
    destruct (object_with_keys_checks _ _ (Himage E)) as [-> Hkeys].
    rewrite !Hkeys by (cbn [In]; tauto).
    destruct (Hdimensions E) as [d [s [-> [-> [Hwidth Hheight]]]]].
    now rewrite (truthy_given_number _ Hwidth), (truthy_given_number _ Hheight).
Qed.

Lemma own_nil_accepted p key :
  fieldDiagnostics p key = Normal [] ->
  (forall k member, In (k, member) (nested_entries p) -> accepted_field member) ->
  accepted_field p.
Proof.
  intros Hown Hnested. run_own Hown. symmetry in Hown.
  apply app_eq_nil in Hown. destruct Hown as [Btype Hown].
  apply app_eq_nil in Hown. destruct Hown as [Bdescription Hown].
  apply app_eq_nil in Hown. destruct Hown as [Bname Hown].
  apply app_eq_nil in Hown. destruct Hown as [Bdefault Hown].
  destruct (rules p) as [r |] eqn:Hrules; [| discriminate Hown].
  apply app_eq_nil in Hown. destruct Hown as [Brequired Hown].
  apply app_eq_nil in Hown. destruct Hown as [Bcontent Hown].
  apply app_eq_nil in Hown. destruct Hown as [Btext Hown].
  apply app_eq_nil in Hown. destruct Hown as [Barray Hown].
  apply app_eq_nil in Hown. destruct Hown as [Blink Hown].
  apply app_eq_nil in Hown. destruct Hown as [Bbutton Bimage].
  apply accepted_field_intro with (r := r).
  - clear - Btype. nil_guards. apply valid_type_of_checks; [| assumption].
    now apply negb_false_iff.
  - clear - Bname. nil_guards. apply truthy_string_given. now apply negb_false_iff.
  - clear - Bdescription. nil_guards. apply truthy_string_given. now apply negb_false_iff.
  - exact Hrules.
  - clear - Brequired. nil_guards.
    match goal with H : _ && _ = false |- _ => apply andb_false_iff in H; destruct H as [H | H];
      apply negb_false_iff, strict_eq_bool_true in H end; [now right | now left].
  - clear - Bdefault. intros Hnot. nil_guards.
    destruct (strict_eq_string (type p) "array") eqn:E;
      [apply strict_eq_string_true in E; contradiction |].
    destruct (default p); [discriminate | discriminate].
  - clear - Blink. intros Htype. rewrite Htype in Blink.
    cbn [strict_eq_string] in Blink. rewrite String.eqb_refl in Blink.
    nil_guards. apply object_with_keys_of_checks; try assumption;
      [apply existsb_eqb_In; reflexivity | | ];
      match goal with H : negb (has_key ?k _) = false |- has_key ?k _ = true =>
        now apply negb_false_iff end.
  - clear - Bbutton. intros Htype. rewrite Htype in Bbutton.
    cbn [strict_eq_string] in Bbutton. rewrite String.eqb_refl in Bbutton.
    nil_guards. apply object_with_keys_of_checks; try assumption;
      [apply existsb_eqb_In; reflexivity | | ];
      match goal with H : negb (has_key ?k _) = false |- has_key ?k _ = true =>
        now apply negb_false_iff end.
  - clear - Bimage. intros Htype. rewrite Htype in Bimage.
    cbn [strict_eq_string] in Bimage. rewrite String.eqb_refl in Bimage.
    apply app_eq_nil in Bimage. destruct Bimage as [Bimage _].
    nil_guards. apply object_with_keys_of_checks; try assumption;
      [apply existsb_eqb_In; reflexivity | | ];
      match goal with H : negb (has_key ?k _) = false |- has_key ?k _ = true =>
        now apply negb_false_iff end.
  - clear - Bcontent. intros c Hc. rewrite Hc in Bcontent.
    apply app_eq_nil in Bcontent. destruct Bcontent as [Bmin Bmax]. split.
    + nil_guards. apply truthy_number_given. now apply negb_false_iff.
    + intros Hrequired. apply strict_eq_bool_true in Hrequired.
      rewrite Hrequired, andb_true_r in Bmin. nil_guards.
      apply truthy_number_given. now apply negb_false_iff.
  - clear - Btext. intros Htype. rewrite Htype in Btext.
    cbn [strict_eq_string] in Btext. rewrite String.eqb_refl in Btext.
    destruct (content r); [discriminate | discriminate Btext].
  - clear - Barray. intros Htype. rewrite Htype in Barray.
    cbn [strict_eq_string] in Barray. rewrite String.eqb_refl in Barray.
    apply app_eq_nil in Barray. destruct Barray as [Barray _].
    destruct (content r) as [c |]; [| discriminate Barray].
    exists c. split; [reflexivity |].
    apply app_eq_nil in Barray. destruct Barray as [Bmin Bmax].
    split; nil_guards; apply at_least_one_of_checks; try assumption;
      now apply negb_false_iff.
  - clear - Bimage. intros Htype. rewrite Htype in Bimage.
    cbn [strict_eq_string] in Bimage. rewrite String.eqb_refl in Bimage.
    apply app_eq_nil in Bimage. destruct Bimage as [_ Bimage].
    destruct (dimensions r) as [d |]; [| discriminate Bimage].
    destruct (dimensions_min d) as [s |] eqn:Hmin; [| discriminate Bimage].
    exists d, s. split; [reflexivity |]. split; [exact Hmin |].
    apply app_eq_nil in Bimage. destruct Bimage as [Bwidth Bheight].
    split; nil_guards; apply truthy_number_given; now apply negb_false_iff.
  - clear - Barray Hnested Hrules. intros Htype.
    unfold nested_entries in Hnested. rewrite Htype, Hrules in *.
    cbn [strict_eq_string] in *. rewrite String.eqb_refl in *.
    cbn [truthy truthy_option truthy_Rules andb] in Hnested.
    apply app_eq_nil in Barray. destruct Barray as [_ Bitems].
    destruct (items p) as [it |]; [| discriminate Bitems].
    apply app_eq_nil in Bitems. destruct Bitems as [Bitype Bentries].
    destruct (items_properties it) as [entries |] eqn:Hentries;
      [| discriminate Bentries].
    exists it, entries. split; [reflexivity |]. split; [| split].
    + clear - Bitype. nil_guards. apply valid_type_of_checks; [| assumption].
      now apply negb_false_iff.
    + exact Hentries.
    + exact Hnested.
Qed.

Lemma validateField_accepted_iff p :
  forall key, validateField p key = Normal [] <-> accepted_field p.
Proof.
  induction p as [p IH] using PropertyDefinition_tree_ind. intros key.
  destruct (validateField_own_nested FieldTypes p key) as [own [Hown Hall]].
  assert (Hentries : forall k member, In (k, member) (nested_entries p) ->
                     forall key', validateField member key' = Normal [] <->
                                  accepted_field member).
  { intros k member Hin. unfold nested_entries in Hin.
    destruct (strict_eq_string (type p) "array" && truthy (rules p)); [| destruct Hin].
    destruct (items p) as [it |] eqn:Hit; [| destruct Hin].
    destruct (items_properties it) as [entries |] eqn:He; [| destruct Hin].
    exact (IH it entries eq_refl He k member Hin). }
  split.
  - intros Hnil. rewrite Hall in Hnil. injection Hnil as Hnil.
    apply app_eq_nil in Hnil. destruct Hnil as [-> Hloop].
    apply (own_nil_accepted p key Hown).
    intros k member Hin. apply (Hentries k member Hin k).
    unfold loop_output in Hloop.
    assert (Hcall : returned (validateField member k) = []).
    { clear - Hloop Hin. induction (nested_entries p) as [| e rest IHrest];
        [destruct Hin |].
      cbn [flat_map] in Hloop. apply app_eq_nil in Hloop. destruct Hloop as [He Hrest].
      destruct Hin as [-> | Hin]; [exact He | exact (IHrest Hrest Hin)]. }
    destruct (validateField_own_nested FieldTypes member k) as [own' [_ Hall']].
    rewrite Hall' in Hcall |- *. cbn [returned] in Hcall. now rewrite Hcall.
  - intros Haccepted. rewrite Hall, (accepted_field_own p key own Haccepted Hown).
    cbn [app]. f_equal. apply loop_output_nil. intros k member Hin.
    apply (Hentries k member Hin k).
    unfold nested_entries in Hin.
    destruct (strict_eq_string (type p) "array") eqn:E; [| destruct Hin].
    apply strict_eq_string_true in E.
    destruct Haccepted as [p r _ _ _ _ _ _ _ _ _ _ _ _ _ Hitems].
    destruct (Hitems E) as [it [entries [Hit [_ [Hentries' Hmembers]]]]].
    rewrite Hit, Hentries' in Hin.
    destruct (truthy (rules p)); [| destruct Hin].
    exact (Hmembers k member Hin).
Qed.

(** X11: [validateField] returns the empty list exactly on the accepted
    fields ([accepted_field]): fully populated fields, where the
    minimum of the content rules may be left out unless the field is
    required; and whether it does is independent of the key. *)
Theorem validateField_accepts_exactly p key key' :
  (validateField p key = Normal [] <-> accepted_field p) /\
  (validateField p key = Normal [] <-> validateField p key' = Normal []).
Proof.
  split; [apply validateField_accepted_iff |].
  now rewrite (validateField_accepted_iff p key), (validateField_accepted_iff p key').
Qed.

End AcceptedFields.

(** ** The diagnostics of a component *)

Lemma filter_all (A : Type) (f : A -> bool) (l : list A) :
  Forall (fun a => f a = true) l -> filter f l = l.
Proof.
  induction 1 as [| a l Ha _ IH]; [reflexivity |]. cbn [filter]. now rewrite Ha, IH.
Qed.

Lemma filter_none (A : Type) (f : A -> bool) (l : list A) :
  Forall (fun a => f a = false) l -> filter f l = [].
Proof.
  induction 1 as [| a l Ha _ IH]; [reflexivity |]. cbn [filter]. now rewrite Ha, IH.
Qed.

Section Components.

Variable FieldTypes : list string.

Local Abbreviation validateField := (validateField FieldTypes).
Local Abbreviation fieldDiagnostics := (fieldDiagnostics FieldTypes).
Local Abbreviation validateModule := (validateModule FieldTypes).
Local Abbreviation accepted_field := (accepted_field FieldTypes).
Local Abbreviation accepted_component := (accepted_component FieldTypes).

(** [validateModule] in closed form. *)
Lemma validateModule_own_nested c :
  validateModule c =
  Normal (((if negb (truthy (code c)) then
              [component_diagnostic "Component code is required" "code"]
            else []) ++
           (if negb (truthy (title c)) then
              [component_diagnostic "Component title is required" "title"]
            else []) ++
           (if negb (truthy (tags c)) then
              [component_diagnostic "Component tags are required" "tags"]
            else if negb (isArray (tags c)) then
              [component_diagnostic "Component tags must be an array" "tags"]
            else []) ++
           (if negb (truthy (properties c)) then
              [component_diagnostic "Component properties are required" "properties"]
            else [])) ++
          loop_output validateField (component_entries c)).
Proof.
  unfold_validator. apply appends_returning_eq with
    (out := (if negb (truthy (code c)) then
               [component_diagnostic "Component code is required" "code"]
             else []) ++
            (if negb (truthy (title c)) then
               [component_diagnostic "Component title is required" "title"]
             else []) ++
            (if negb (truthy (tags c)) then
               [component_diagnostic "Component tags are required" "tags"]
             else if negb (isArray (tags c)) then
               [component_diagnostic "Component tags must be an array" "tags"]
             else []) ++
            match properties c with
            | Some entries => loop_output validateField entries
            | None => [component_diagnostic "Component properties are required"
                                            "properties"]
            end).
  - run_statements.
    intros k member Hin.
    destruct (validateField_own_nested FieldTypes member k) as [own [_ Hall]].
    eexists. exact Hall.
  - unfold component_entries. rewrite <- !app_assoc.
    destruct (properties c) as [entries |]; reflexivity.
Qed.


Lemma loop_output_field_shaped entries :
  Forall field_shaped (loop_output validateField entries).
Proof.
  unfold loop_output. apply Forall_flat_map, Forall_forall. intros [k member] _.
  apply returned_field_shaped.
Qed.

Lemma field_shaped_has_property d : field_shaped d -> without_property d = false.
Proof.
  intros [_ [Hproperty _]]. unfold without_property.
  destruct (property d); [reflexivity | contradiction].
Qed.

Lemma field_shaped_not_component a d :
  In a component_attributes -> field_shaped d -> has_attribute a d = false.
Proof.
  intros Ha [Hattribute _]. unfold has_attribute. apply String.eqb_neq. intros Heq.
  rewrite Heq in Hattribute. apply In_existsb_eqb in Hattribute.
  repeat (destruct Ha as [<- | Ha]; [discriminate Hattribute |]). destruct Ha.
Qed.

(** X12: [validateModule] returns: first the diagnostics about the
    component, which have neither property nor severity and one of the
    attributes code, title, tags, properties, each at most once; then
    those of the fields, in the order of [properties].  The
    diagnostics about the component are exactly those of the result
    that carry no property. *)
Theorem validateModule_component_diagnostics c :
  exists own,
    validateModule c = Normal (own ++ loop_output validateField (component_entries c)) /\
    Forall component_shaped own /\
    Forall field_shaped (loop_output validateField (component_entries c)) /\
    filter without_property (returned (validateModule c)) = own /\
    forall a, (List.length (filter (has_attribute a) own) <= 1)%nat.
Proof.
  eexists. split; [apply validateModule_own_nested |].
  split; [| split; [| split]].
  - forall_diagnostics_by
      ltac:(split; [apply existsb_eqb_In; reflexivity | split; reflexivity]).
  - apply loop_output_field_shaped.
  - rewrite validateModule_own_nested. cbn [returned]. rewrite filter_app.
    rewrite (filter_none _ without_property (loop_output _ _)).
    + rewrite app_nil_r. apply filter_all.
      forall_diagnostics_by ltac:(reflexivity).
    + eapply Forall_impl; [| apply loop_output_field_shaped].
      intros d. apply field_shaped_has_property.
  - intros a. rewrite !filter_app, !length_app.
    destruct (negb (truthy (code c))), (negb (truthy (title c))),
             (negb (truthy (tags c))), (negb (isArray (tags c))),
             (negb (truthy (properties c)));
      unfold has_attribute; cbn [filter attribute component_diagnostic];
      (destruct (String.eqb_spec "code" a) as [<- |]; [cbn; lia |]);
      (destruct (String.eqb_spec "title" a) as [<- |]; [cbn; lia |]);
      (destruct (String.eqb_spec "tags" a) as [<- |]; [cbn; lia |]);
      (destruct (String.eqb_spec "properties" a) as [<- |]; [cbn; lia |]);
      cbn; lia.
Qed.

(** X13: about the tags, the result of [validateModule] holds nothing when
    [tags] is an array (an empty one included), "Component tags must
    be an array" when it is another truthy value, and "Component tags
    are required" when it is missing or falsy; never both, and no
    field writes this attribute. *)
Theorem validateModule_tags c :
  filter (has_attribute "tags") (returned (validateModule c)) =
  match tags c with
  | Some (VArray elements) => []
  | Some v =>
      if truthy v then [component_diagnostic "Component tags must be an array" "tags"]
      else [component_diagnostic "Component tags are required" "tags"]
  | None => [component_diagnostic "Component tags are required" "tags"]
  end.
Proof.
  rewrite validateModule_own_nested. cbn [returned]. rewrite filter_app.
  rewrite (filter_none _ (has_attribute "tags") (loop_output _ _)).
  - rewrite app_nil_r. select_diagnostics.
    destruct (tags c) as [[| b | n | s | elements | members] |];
      cbn [truthy truthy_option truthy_value isArray negb]; try reflexivity.
    + destruct b; reflexivity.
    + destruct (truthy n); reflexivity.
    + destruct (truthy s); reflexivity.
  - eapply Forall_impl; [| apply loop_output_field_shaped].
    intros d. apply field_shaped_not_component. apply existsb_eqb_In. reflexivity.
Qed.

Lemma validateModule_accepted_iff c :
  validateModule c = Normal [] <-> accepted_component c.
Proof.
  rewrite validateModule_own_nested. split.
  - intros Hnil. injection Hnil as Hnil.
    apply app_eq_nil in Hnil. destruct Hnil as [Hown Hloop].
    apply app_eq_nil in Hown. destruct Hown as [Bcode Hown].
    apply app_eq_nil in Hown. destruct Hown as [Btitle Hown].
    apply app_eq_nil in Hown. destruct Hown as [Btags Bproperties].
    split; [| split; [| split]].
    + clear - Bcode. nil_guards. apply truthy_string_given. now apply negb_false_iff.
    + clear - Btitle. nil_guards. apply truthy_string_given. now apply negb_false_iff.
    + clear - Btags. nil_guards.
      destruct (tags c) as [[| b | n | s | elements | members] |]; try discriminate.
      now exists elements.
    + unfold component_entries in Hloop.
      destruct (properties c) as [entries |]; [| discriminate Bproperties].
      exists entries. split; [reflexivity |]. intros k p Hin.
      apply (validateField_accepted_iff FieldTypes p k).
      assert (Hcall : returned (validateField p k) = []).
      { clear - Hloop Hin. unfold loop_output in Hloop.
        induction entries as [| e rest IHrest]; [destruct Hin |].
        cbn [flat_map] in Hloop. apply app_eq_nil in Hloop.
        destruct Hloop as [He Hrest].
        destruct Hin as [-> | Hin]; [exact He | exact (IHrest Hrest Hin)]. }
      destruct (validateField_own_nested FieldTypes p k) as [own' [_ Hall']].
      rewrite Hall' in Hcall |- *. cbn [returned] in Hcall. now rewrite Hcall.
  - intros [Hcode [Htitle [[elements Htags] [entries [Hproperties Hfields]]]]].
    rewrite (truthy_given_string _ Hcode), (truthy_given_string _ Htitle).
    unfold component_entries. rewrite Htags, Hproperties.
    cbn [truthy truthy_option truthy_value truthy_properties isArray negb app].
    f_equal. apply loop_output_nil. intros k p Hin.
    apply (validateField_accepted_iff FieldTypes p k). exact (Hfields k p Hin).
Qed.

(** X14: [validateModule] returns the empty list exactly on the accepted
    components: code and title given, tags an array, and a mapping of
    properties, possibly empty, whose fields are all accepted. *)
Theorem validateModule_accepts_exactly c :
  validateModule c = Normal [] <-> accepted_component c.
Proof. exact (validateModule_accepted_iff c). Qed.

End Components.

(** ** The earlier iteration *)

Ltac run_earlier_own H :=
  unfold earlier_fieldDiagnostics, Earlier.validateField_body in H;
  erewrite appends_returning in H by run_statements;
  injection H as H; symmetry in H.

Lemma incl_if (A : Type) (c c' : bool) (a : list A) :
  (c = true -> c' = true) ->
  incl (if c then a else []) (if c' then a else []).
Proof.
  intros H. destruct c; [rewrite (H eq_refl); apply incl_refl | apply incl_nil_l].
Qed.

Lemma incl_flat_map (A B : Type) (f g : A -> list B) (l : list A) :
  (forall a, In a l -> incl (f a) (g a)) -> incl (flat_map f l) (flat_map g l).
Proof.
  intros H b Hb. apply in_flat_map in Hb. destruct Hb as [a [Ha Hb]].
  apply in_flat_map. exists a. split; [exact Ha | exact (H a Ha b Hb)].
Qed.

Lemma filter_flat_map (A B : Type) (p : B -> bool) (f : A -> list B) (l : list A) :
  filter p (flat_map f l) = flat_map (fun a => filter p (f a)) l.
Proof.
  induction l as [| a l IH]; [reflexivity |].
  cbn [flat_map]. now rewrite filter_app, IH.
Qed.

Section EarlierIteration.

Variable FieldTypes : list string.

Local Abbreviation validateField := (validateField FieldTypes).
Local Abbreviation fieldDiagnostics := (fieldDiagnostics FieldTypes).
Local Abbreviation earlier_validateField := (Earlier.validateField FieldTypes).
Local Abbreviation earlier_fieldDiagnostics := (earlier_fieldDiagnostics FieldTypes).

Lemma earlier_validateField_unfold p key :
  earlier_validateField p key =
  Earlier.validateField_body FieldTypes earlier_validateField p key.
Proof. destruct p; reflexivity. Qed.

Lemma earlier_own_nested p :
  forall key, exists own,
    earlier_fieldDiagnostics p key = Normal own /\
    earlier_validateField p key =
    Normal (own ++ loop_output earlier_validateField (nested_entries p)).
Proof.
  induction p as [p IH] using PropertyDefinition_tree_ind. intros key.
  eexists. split.
  { unfold earlier_fieldDiagnostics, Earlier.validateField_body.
    apply appends_returning. run_statements. }
  rewrite earlier_validateField_unfold. unfold Earlier.validateField_body.
  eapply appends_returning_eq.
  { run_statements. intros k member Hin.
    match goal with
    | Hit : items p = Some ?it, He : items_properties ?it = Some _ |- _ =>
        destruct (IH _ _ Hit He k member Hin k) as [own [_ Hcall]]
    end.
    eexists. exact Hcall. }
  unfold nested_entries.
  destruct (strict_eq_string (type p) "array") eqn:Harray.
  - apply strict_eq_string_true in Harray. rewrite Harray.
    destruct (rules p) as [r |]; [| cbn; now rewrite app_nil_r].
    destruct (items p) as [it |]; [| cbn; now rewrite !app_nil_r].
    destruct (items_properties it) as [entries |]; [| cbn; now rewrite !app_nil_r].
    cbn -[append]. rewrite ?app_nil_r, <- ?app_assoc. reflexivity.
  - cbn. rewrite !app_nil_r.
    destruct (rules p) as [r |]; reflexivity.
Qed.

Lemma earlier_own_field_shaped p key own :
  earlier_fieldDiagnostics p key = Normal own -> Forall field_shaped own.
Proof.
  intros Hown. run_earlier_own Hown. subst own.
  forall_diagnostics_by
    ltac:(split; [apply existsb_eqb_In; reflexivity
                 | split; [discriminate
                          | first [ left; reflexivity
                                  | right; split;
                                    [reflexivity | apply existsb_eqb_In; reflexivity] ] ] ]).
Qed.

Lemma earlier_own_shaped p key own :
  earlier_fieldDiagnostics p key = Normal own ->
  Forall (fun d => touches_default_keys d = false) own.
Proof.
  intros Hown. run_earlier_own Hown. subst own.
  forall_diagnostics_by ltac:(reflexivity).
Qed.

Lemma earlier_returned_shaped p :
  forall key, Forall earlier_shaped (returned (earlier_validateField p key)).
Proof.
  induction p as [p IH] using PropertyDefinition_tree_ind. intros key.
  destruct (earlier_own_nested p key) as [own [Hown Hall]].
  rewrite Hall. cbn [returned]. apply Forall_app. split.
  - apply Forall_and;
      [exact (earlier_own_field_shaped p key own Hown)
      | exact (earlier_own_shaped p key own Hown)].
  - unfold loop_output. apply Forall_flat_map, Forall_forall.
    intros [k member] Hin. cbn [fst snd].
    unfold nested_entries in Hin.
    destruct (strict_eq_string (type p) "array" && truthy (rules p)); [| destruct Hin].
    destruct (items p) as [it |] eqn:Hit; [| destruct Hin].
    destruct (items_properties it) as [entries |] eqn:He; [| destruct Hin].
    exact (IH it entries eq_refl He k member Hin k).
Qed.

(** X15: the earlier iteration of [validateField] returns as well, its
    diagnostics have the shape of those of a field, and none is about
    a key of the default: it has no link or button checks and does not
    look into the default of an image. *)
Theorem earlier_validateField_returns p key :
  exists l,
    Earlier.validateField FieldTypes p key = Normal l /\ Forall earlier_shaped l.
Proof.
  destruct (earlier_own_nested p key) as [own [_ Hall]].
  eexists. split; [exact Hall |].
  pose proof (earlier_returned_shaped p key) as H. now rewrite Hall in H.
Qed.

Lemma own_warnings_were_earlier_warnings p key own own' :
  fieldDiagnostics p key = Normal own ->
  earlier_fieldDiagnostics p key = Normal own' ->
  incl (filter (has_severity warning) own) (filter (has_severity warning) own').
Proof.
  intros Hown Hown'. run_own Hown. run_earlier_own Hown'. subst own own'.
  destruct (rules p) as [r |]; [destruct (content r) as [c |] |];
    select_diagnostics;
    repeat apply incl_app_app; try apply incl_refl; apply incl_if.
  - destruct (default p); [discriminate | reflexivity].
  - intros H. now apply andb_true_iff in H.
  - destruct (default p); [discriminate | reflexivity].
  - destruct (default p); [discriminate | reflexivity].
Qed.

(** X16: every warning the validator writes for a field and its nested
    fields was already written by the earlier iteration: the later
    conditions on the default and on the minimum are the earlier ones
    made stricter. *)
Theorem warnings_were_earlier_warnings p :
  forall key,
    incl (filter (has_severity warning) (returned (validateField p key)))
         (filter (has_severity warning) (returned (Earlier.validateField FieldTypes p key))).
Proof.
  induction p as [p IH] using PropertyDefinition_tree_ind. intros key.
  destruct (validateField_own_nested FieldTypes p key) as [own [Hown Hall]].
  destruct (earlier_own_nested p key) as [own' [Hown' Hall']].
  rewrite Hall, Hall'. cbn [returned]. rewrite !filter_app. apply incl_app_app.
  - exact (own_warnings_were_earlier_warnings p key own own' Hown Hown').
  - unfold loop_output. rewrite !filter_flat_map. apply incl_flat_map.
    intros [k member] Hin. cbn [fst snd].
    unfold nested_entries in Hin.
    destruct (strict_eq_string (type p) "array" && truthy (rules p)); [| destruct Hin].
    destruct (items p) as [it |] eqn:Hit; [| destruct Hin].
    destruct (items_properties it) as [entries |] eqn:He; [| destruct Hin].
    exact (IH it entries eq_refl He k member Hin k).
Qed.

(** X17: the earlier iteration tests [rules.required] for truth: it
    reports it exactly when it is falsy.  So [required: false] is an
    error there and is accepted by the validator, while a truthy value
    that is not [true] passes there and is an error for the
    validator. *)
Theorem required_checked_for_truth_earlier p key r :
  rules p = Some r ->
  exists own own',
    fieldDiagnostics p key = Normal own /\
    earlier_fieldDiagnostics p key = Normal own' /\
    filter (has_attribute "rules.required") own' =
    (if truthy (required r) then []
     else [field_diagnostic "Field rules.required is required" "rules.required"
                            key error]) /\
    (required r = Some (VBool false) ->
     filter (has_attribute "rules.required") own = []) /\
    (truthy (required r) = true -> required r <> Some (VBool true) ->
     filter (has_attribute "rules.required") own =
     [field_diagnostic "Field rules.required is required" "rules.required" key error]).
Proof.
  intros Hrules.
  destruct (validateField_own_nested FieldTypes p key) as [own [Hown _]].
  destruct (earlier_own_nested p key) as [own' [Hown' _]].
  exists own, own'. split; [exact Hown |]. split; [exact Hown' |].
  run_own Hown. run_earlier_own Hown'. subst own own'. rewrite Hrules.
  cbv beta iota. split; [| split].
  - select_diagnostics. destruct (truthy (required r)); reflexivity.
  - intros ->. select_diagnostics. reflexivity.
  - intros Htruthy Hnot. select_diagnostics.
    destruct (required r) as [[| [] | n | s | elements | members] |];
      try discriminate Htruthy; try reflexivity.
    now contradiction Hnot.
Qed.

End EarlierIteration.

Section EarlierComponents.

Variable FieldTypes : list string.

(** X18: the earlier iteration of [validateModule] returns: the
    diagnostics about the component, then those of the fields; and it
    never writes the attribute tags. *)
Theorem earlier_validateModule_returns c :
  exists own,
    Earlier.validateModule FieldTypes c =
    Normal (own ++ loop_output (Earlier.validateField FieldTypes) (component_entries c)) /\
    Forall component_shaped own /\
    filter (has_attribute "tags") (returned (Earlier.validateModule FieldTypes c)) = [].
Proof.
  assert (Hclosed :
    Earlier.validateModule FieldTypes c =
    Normal (((if negb (truthy (code c)) then
                [component_diagnostic "Component code is required" "code"]
              else []) ++
             (if negb (truthy (title c)) then
                [component_diagnostic "Component title is required" "title"]
              else []) ++
             (if negb (truthy (properties c)) then
                [component_diagnostic "Component properties are required" "properties"]
              else [])) ++
            loop_output (Earlier.validateField FieldTypes) (component_entries c))).
  { unfold Earlier.validateModule. apply appends_returning_eq with
      (out := (if negb (truthy (code c)) then
                 [component_diagnostic "Component code is required" "code"]
               else []) ++
              (if negb (truthy (title c)) then
                 [component_diagnostic "Component title is required" "title"]
               else []) ++
              match properties c with
              | Some entries => loop_output (Earlier.validateField FieldTypes) entries
              | None => [component_diagnostic "Component properties are required"
                                              "properties"]
              end).
    - run_statements. intros k member Hin.
      destruct (earlier_own_nested FieldTypes member k) as [own [_ Hall]].
      eexists. exact Hall.
    - unfold component_entries. rewrite <- !app_assoc.
      destruct (properties c) as [entries |]; reflexivity. }
  eexists. split; [exact Hclosed |]. split.
  - forall_diagnostics_by
      ltac:(split; [apply existsb_eqb_In; reflexivity | split; reflexivity]).
  - rewrite Hclosed. cbn [returned]. rewrite filter_app. apply app_both_nil.
    + filter_nil.
    + apply filter_none. unfold loop_output. apply Forall_flat_map, Forall_forall.
      intros [k member] _. cbn [fst snd].
      eapply Forall_impl; [| exact (earlier_returned_shaped FieldTypes member k)].
      intros d [Hfield _]. apply field_shaped_not_component; [| exact Hfield].
      apply existsb_eqb_In. reflexivity.
Qed.

End EarlierComponents.

(** ** Presentation *)



Ltac unfold_presentation := unfold validateComponent, formatErrors.

Section PresentationProperties.

Variable red yellow green : string -> string.
Variable toUpperCase : string -> string.
Variable FieldTypes : list string.

Local Abbreviation formatError := (formatError red yellow toUpperCase).
Local Abbreviation formatErrors := (formatErrors red yellow toUpperCase).
Local Abbreviation validateComponent :=
  (validateComponent red yellow green toUpperCase FieldTypes).
Local Abbreviation validateModule := (validateModule FieldTypes).


(** X20: the diagnostics [validateModule] writes about the component
    itself carry no severity and no property, so [formatErrors] makes
    of each the line ": <message>" followed by two spaces, with an
    empty label in front of the colon, in red. *)
Theorem component_diagnostics_format c :
  exists own,
    validateModule c = Normal (own ++ loop_output (validateField FieldTypes)
                                                  (component_entries c)) /\
    Forall (fun d => formatError d = red (": " ++ message d ++ "  ")%string) own.
Proof.
  eexists. split; [apply validateModule_own_nested |].
  forall_diagnostics_by ltac:(reflexivity).
Qed.

(** X21: when the fetch resolves, [validateComponent] makes exactly one
    call on the console: [console.log] with "Validation passed" in
    green when the component is accepted, and otherwise
    [console.error] with "Validation failed" in red and the formatted
    diagnostics, of which there is at least one. *)
Theorem validateComponent_reports c :
  exists errors,
    validateModule c = Normal errors /\
    (accepted_component FieldTypes c ->
     validateComponent (Normal c) = Normal [console_log [green "Validation passed"]]) /\
    (~ accepted_component FieldTypes c ->
     errors <> [] /\
     validateComponent (Normal c) =
     Normal [console_error [red ("Validation failed" ++ line_feed)%string;
                            formatErrors errors]]).
Proof.
  destruct (validateModule c) as [errors | e] eqn:Hcall.
  - exists errors. split; [reflexivity |]. split.
    + intros Haccepted. apply validateModule_accepted_iff in Haccepted.
      rewrite Hcall in Haccepted. injection Haccepted as ->.
      unfold_presentation. now rewrite Hcall.
    + intros Hnot.
      assert (Herrors : errors <> []).
      { intros ->. apply Hnot. now apply validateModule_accepted_iff. }
      split; [exact Herrors |].
      unfold_presentation. rewrite Hcall.
      destruct errors as [| d rest]; [contradiction | reflexivity].
  - rewrite validateModule_own_nested in Hcall. discriminate Hcall.
Qed.

End PresentationProperties.

(** ** Building form fields *)

Ltac unfold_builders :=
  unfold buildBaseField, buildBaseGroupField, base_members, and_then, member_of.

Section Builders.

Variable FieldTypes : list string.
Variable Child : Type.
Variable safeLabel : string -> completion string.
Variable safeName : option string -> completion string.
Variable parseRequired : option Rules -> completion bool.
Variable buildFields :
  option (list (string * PropertyDefinition)) -> completion (list Child).

Local Abbreviation buildBaseGroupField :=
  (buildBaseGroupField safeLabel safeName parseRequired buildFields).
Local Abbreviation buildBaseField :=
  (buildBaseField safeLabel safeName parseRequired).
Local Abbreviation validateField := (validateField FieldTypes).

(** X22: [buildBaseGroupField] never returns on a property without a
    rules object, nor on an array property without [items]: whatever
    the helpers do, the call ends with an exception ([property.rules]
    and [property.items] are read without a guard). *)
Theorem buildBaseGroupField_throws uuid id p :
  rules p = None \/ (type p = Some "array" /\ items p = None) ->
  exists e, buildBaseGroupField uuid id p = Abrupt e.
Proof.
  intros Hmissing. unfold_builders.
  destruct (safeLabel id) as [a | e]; [| now exists e].
  destruct (safeName (name p)) as [b | e]; [| now exists e].
  destruct (parseRequired (rules p)) as [c | e]; [| now exists e].
  destruct Hmissing as [Hrules | [Htype Hitems]].
  - rewrite Hrules. now exists TypeError.
  - destruct (rules p) as [r |]; [| now exists TypeError].
    rewrite Htype, Hitems. now exists TypeError.
Qed.

(** X23: a field on which [validateField] reports nothing is built by
    [buildBaseGroupField] without an exception, provided the helpers
    return: the result is of type "group", its occurrence default is
    its minimum, for an array field the minimum and the maximum are at
    least one, and a field that is not an array has no children. *)
Theorem validated_field_is_built uuid id p key :
  validateField p key = Normal [] ->
  (forall s, exists r, safeLabel s = Normal r) ->
  (forall s, exists r, safeName s = Normal r) ->
  (forall s, exists r, parseRequired s = Normal r) ->
  (forall s, exists r, buildFields s = Normal r) ->
  exists g,
    buildBaseGroupField uuid id p = Normal g /\
    field_type (group_base g) = "group" /\
    occurrence_default (group_occurrence g) = occurrence_min (group_occurrence g) /\
    (type p = Some "array" ->
     1 <= occurrence_min (group_occurrence g) /\
     1 <= occurrence_max (group_occurrence g)) /\
    (type p <> Some "array" -> group_children g = []).
Proof.
  intros Hvalid HsafeLabel HsafeName HparseRequired HbuildFields.
  apply validateField_accepted_iff in Hvalid.
  destruct Hvalid as [p r _ _ _ Hrules _ _ _ _ _ _ _ Harray _ Hitems].
  unfold_builders.
  destruct (HsafeLabel id) as [a ->].
  destruct (HsafeName (name p)) as [b ->].
  destruct (HparseRequired (rules p)) as [c ->].
  rewrite Hrules.
  destruct (strict_eq_string (type p) "array") eqn:E.
  - apply strict_eq_string_true in E.
    destruct (Hitems E) as [it [entries [-> _]]].
    destruct (HbuildFields (items_properties it)) as [children ->].
    destruct (Harray E) as [cr [Hcontent [[n [Hmin Hn]] [m [Hmax Hm]]]]].
    rewrite Hcontent. cbn [optional_member]. rewrite Hmin, Hmax.
    eexists. split; [reflexivity |].
    cbn [group_base group_occurrence group_children field_type
         occurrence_min occurrence_max occurrence_default].
    split; [reflexivity |]. split; [reflexivity |]. split.
    + intros _. unfold or_zero, truthy, truthy_number.
      destruct (Z.eqb_spec n 0); destruct (Z.eqb_spec m 0); cbn [negb]; lia.
    + intros Hnot. contradiction.
  - apply strict_eq_string_false in E.
    eexists. split; [reflexivity |]. cbn.
    split; [reflexivity |]. split; [reflexivity |]. split.
    + intros Htype. contradiction.
    + reflexivity.
Qed.


End Builders.

(** ** The further properties on sample inputs *)

(** X2 on the list without rules. *)
Lemma validateField_without_rules_witness :
  rules ruleless_list = None /\
  exists generic,
    validateField sample_FieldTypes ruleless_list "links" =
      Normal (generic ++ [field_diagnostic "Field rules are required" "rules"
                                           "links" warning]) /\
    Forall (fun d => In (attribute d) ["type"; "description"; "name"; "default"]) generic.
Proof.
  split; [reflexivity |].
  exact (validateField_without_rules sample_FieldTypes ruleless_list "links" eq_refl).
Defined.

(** X5 on the text field without content rules. *)
Lemma content_required_for_text_and_array_witness :
  rules teaser = Some bare_rules /\
  exists own,
    fieldDiagnostics sample_FieldTypes teaser "teaser" = Normal own /\
    filter (has_attribute "rules.content") own =
    [field_diagnostic "Content rules are required for text fields"
                      "rules.content" "teaser" error].
Proof.
  split; [reflexivity |].
  destruct (content_required_for_text_and_array sample_FieldTypes teaser "teaser"
              bare_rules eq_refl) as [own [Hown [_ [_ Hmissing]]]].
  exists own. split; [exact Hown |].
  destruct (Hmissing eq_refl) as [Htext _]. exact (Htext eq_refl).
Defined.

(** X6 on the image field with both minimum sizes. *)
Lemma image_dimension_diagnostics_witness :
  rules (banner (Some banner_default)) = Some image_rules /\
  exists own,
    fieldDiagnostics sample_FieldTypes (banner (Some banner_default)) "banner"
    = Normal own /\
    filter touches_dimensions own = [].
Proof.
  split; [reflexivity |].
  destruct (image_dimension_diagnostics sample_FieldTypes (banner (Some banner_default))
              "banner" image_rules eq_refl) as [own [Hown [_ [_ Himage]]]].
  exists own. split; [exact Hown |].
  destruct (Himage eq_refl) as [_ [_ [_ [_ Hgiven]]]]. apply Hgiven.
  eexists. eexists. split; [reflexivity |]. split; [reflexivity |].
  split; eexists; (split; [reflexivity | discriminate]).
Defined.

(** X8 on a link field whose default is an array. *)
Lemma array_default_has_no_keys_witness :
  rules (call_to_action (Some (VArray [VString "/home"]))) = Some bare_rules /\
  default (call_to_action (Some (VArray [VString "/home"])))
  = Some (VArray [VString "/home"]) /\
  exists own,
    fieldDiagnostics sample_FieldTypes (call_to_action (Some (VArray [VString "/home"])))
                     "cta" = Normal own /\
    filter touches_default_keys own =
    [field_diagnostic "Default url is required for link fields"
                      "image.default.url" "cta" error;
     field_diagnostic "Default text is required for link fields"
                      "link.default.text" "cta" error].
Proof.
  split; [reflexivity |]. split; [reflexivity |].
  destruct (array_default_has_no_keys sample_FieldTypes
              (call_to_action (Some (VArray [VString "/home"]))) "cta" bare_rules
              [VString "/home"] eq_refl eq_refl) as [own [Hown [_ [_ [Hlink _]]]]].
  exists own. split; [exact Hown | exact (Hlink eq_refl)].
Defined.

(** X9 on a link field whose default is a string. *)
Lemma primitive_default_rejected_witness :
  rules (call_to_action (Some (VString "/home"))) = Some bare_rules /\
  default (call_to_action (Some (VString "/home"))) = Some (VString "/home") /\
  exists own,
    fieldDiagnostics sample_FieldTypes (call_to_action (Some (VString "/home")))
                     "cta" = Normal own /\
    filter (has_attribute "default") own =
    [field_diagnostic "Default is required for link fields" "default" "cta" error].
Proof.
  split; [reflexivity |]. split; [reflexivity |].
  destruct (primitive_default_rejected sample_FieldTypes
              (call_to_action (Some (VString "/home"))) "cta" bare_rules
              (VString "/home") eq_refl eq_refl)
    as [own [Hown [_ [_ [Hlink _]]]]]; [discriminate | discriminate |].
  exists own. split; [exact Hown |]. apply Hlink. now left.
Defined.

(** X16 on the image field without default. *)
Lemma warnings_were_earlier_warnings_witness :
  In (field_diagnostic "Field default is required" "default" "banner" warning)
     (filter (has_severity warning)
             (returned (validateField sample_FieldTypes (banner None) "banner"))) /\
  In (field_diagnostic "Field default is required" "default" "banner" warning)
     (filter (has_severity warning)
             (returned (Earlier.validateField sample_FieldTypes (banner None) "banner"))).
Proof.
  assert (Hlater :
    In (field_diagnostic "Field default is required" "default" "banner" warning)
       (filter (has_severity warning)
               (returned (validateField sample_FieldTypes (banner None) "banner"))))
    by (left; reflexivity).
  split; [exact Hlater |].
  exact (warnings_were_earlier_warnings sample_FieldTypes (banner None) "banner" _ Hlater).
Defined.

(** X17 on the list that is not required. *)
Lemma required_checked_for_truth_earlier_witness :
  rules list_without_min = Some (list_rules None) /\
  exists own own',
    fieldDiagnostics sample_FieldTypes list_without_min "links" = Normal own /\
    earlier_fieldDiagnostics sample_FieldTypes list_without_min "links" = Normal own' /\
    filter (has_attribute "rules.required") own = [] /\
    filter (has_attribute "rules.required") own' =
    [field_diagnostic "Field rules.required is required" "rules.required"
                      "links" error].
Proof.
  split; [reflexivity |].
  destruct (required_checked_for_truth_earlier sample_FieldTypes list_without_min "links"
              (list_rules None) eq_refl)
    as [own [own' [Hown [Hown' [Hearlier [Hfalse _]]]]]].
  exists own, own'. split; [exact Hown |]. split; [exact Hown' |].
  split; [exact (Hfalse eq_refl) | exact Hearlier].
Defined.


(** X22 on the list without rules. *)
Lemma buildBaseGroupField_throws_witness :
  rules ruleless_list = None /\
  exists e,
    buildBaseGroupField sample_safeLabel sample_safeName sample_parseRequired
                        sample_buildFields "0000" "links" ruleless_list
    = Abrupt e.
Proof.
  split; [reflexivity |].
  exact (buildBaseGroupField_throws string sample_safeLabel sample_safeName
           sample_parseRequired sample_buildFields "0000" "links" ruleless_list
           (or_introl eq_refl)).
Defined.

(** X23 on the fully populated text field. *)
Lemma validated_field_is_built_witness :
  validateField sample_FieldTypes headline "headline" = Normal [] /\
  exists g,
    buildBaseGroupField sample_safeLabel sample_safeName sample_parseRequired
                        sample_buildFields "0000" "headline" headline
    = Normal g /\
    field_type (group_base g) = "group" /\
    group_children g = [].
Proof.
  split; [reflexivity |].
  destruct (validated_field_is_built sample_FieldTypes string sample_safeLabel
              sample_safeName sample_parseRequired sample_buildFields
              "0000" "headline" headline "headline" eq_refl
              (fun s => ex_intro _ _ eq_refl) (fun s => ex_intro _ _ eq_refl)
              (fun s => ex_intro _ _ eq_refl) (fun s => ex_intro _ _ eq_refl))
    as [g [Hg [Htype [_ [_ Hchildren]]]]].
  exists g. split; [exact Hg |]. split; [exact Htype |].
  apply Hchildren. discriminate.
Defined.

(** X10 on the list without items. *)
Lemma array_items_diagnostics_witness :
  type list_without_items = Some "array" /\
  rules list_without_items = Some (list_rules (Some 1)) /\
  exists own,
    validateField sample_FieldTypes list_without_items "links" = Normal own /\
    filter touches_items own =
    [field_diagnostic "Items are required for array fields" "items" "links" error].
Proof.
  split; [reflexivity |]. split; [reflexivity |].
  destruct (array_items_diagnostics sample_FieldTypes list_without_items "links"
              (list_rules (Some 1)) eq_refl eq_refl) as [own [_ [_ [Hnone _]]]].
  exists own. exact (Hnone eq_refl).
Defined.
